(** * estate: the scrape-and-persist pipeline of the 99acres scrapers

    A shallow embedding of the parts of [src/scraper/web2.py],
    [src/scraper/fastscrap3.py] and [src/scraper/webscrap2.py] that decide
    the behaviour of the Extractor, the Listing Walker, the Detail Collector
    and the Persistence Merger, followed by the theorems about them.

    Conventions of the embedding:
    - a Python [dict] with string keys and string values is a
      [gmap string string]; a [pandas.DataFrame] of texts is its column list
      together with its rows, each row a [gmap string string] in which an
      absent column is a missing value (NaN); of a frame that holds numbers
      or truth values the model keeps the column labels only;
    - the file system is a [gmap string FileContent] from paths to contents;
    - [datetime.now().strftime(...)] is an explicit argument (the reading of
      the clock at the call);
    - the browser is replaced by what it returns: the text found under a CSS
      selector, the parsed page, the hyperlinks of a listing page;
    - characters are the 8-bit characters of [string]; [lower] and [strip]
      act on the ASCII range. *)

From stdpp Require Import base option list strings pretty gmap fin_maps.
From Stdlib Require Import Ascii ZArith Lia.
From Stdlib Require String.

#[global] Set Warnings "-clear-no-such-hyp".

(** ** Python string methods *)

Module PyStr.

(** [c.lower()] on one character. *)
Definition lower_ascii (c : ascii) : ascii :=
  let n := Ascii.nat_of_ascii c in
  if (65 <=? n)%nat && (n <=? 90)%nat then Ascii.ascii_of_nat (n + 32) else c.

(** [s.lower()]. *)
Fixpoint lower (s : string) : string :=
  match s with
  | EmptyString => EmptyString
  | String c s' => String (lower_ascii c) (lower s')
  end.

(** [s.startswith(p)]. *)
Definition startswith (p s : string) : bool := String.prefix p s.

(** [sub in s]. *)
Fixpoint contains (sub s : string) : bool :=
  match s with
  | EmptyString => String.prefix sub EmptyString
  | String _ s' => String.prefix sub s || contains sub s'
  end.

(** [s.replace(old, new)] for a non-empty [old]: occurrences are replaced
    from left to right and do not overlap.  [skip] counts the characters of
    an occurrence that are still to be dropped. *)
Fixpoint replace_go (old new : string) (skip : nat) (s : string) : string :=
  match s with
  | EmptyString => EmptyString
  | String c s' =>
      match skip with
      | S k => replace_go old new k s'
      | O =>
          if String.prefix old s
          then new +:+ replace_go old new (String.length old - 1) s'
          else String c (replace_go old new 0 s')
      end
  end.

Definition replace (old new s : string) : string := replace_go old new 0 s.

(** Whitespace removed by [s.strip()]. *)
Definition is_space (c : ascii) : bool :=
  let n := Ascii.nat_of_ascii c in
  ((9 <=? n)%nat && (n <=? 13)%nat) || ((28 <=? n)%nat && (n <=? 32)%nat).

Fixpoint lstrip (s : string) : string :=
  match s with
  | EmptyString => EmptyString
  | String c s' => if is_space c then lstrip s' else s
  end.

Definition rstrip (s : string) : string := String.rev (lstrip (String.rev s)).

(** [s.strip()]. *)
Definition strip (s : string) : string := rstrip (lstrip s).

(** [s[:n]]. *)
Definition take (n : nat) (s : string) : string := String.substring 0 n s.

(** The line feed character. *)
Definition LF : string := String (Ascii.ascii_of_nat 10) EmptyString.

End PyStr.

Module PyDict.

(** [list(dict.fromkeys(l))]: [l] without repetitions, each element at the
    place of its first occurrence. *)
Fixpoint fromkeys (l : list string) : list string :=
  match l with
  | [] => []
  | x :: l' => x :: filter (λ y, y ≠ x) (fromkeys l')
  end.

(** [if value: d[field] = value], for a value that was found or not. *)
Definition set_if (field : string) (value : option string)
    (d : gmap string string) : gmap string string :=
  match value with
  | Some v => <[field := v]> d
  | None => d
  end.

(** A sequence of such guarded assignments, in order. *)
Definition assign (d : gmap string string) (found : list (string * option string))
    : gmap string string :=
  foldl (λ d fv, set_if fv.1 fv.2 d) d found.

End PyDict.

(** ** The fragment of pandas used by the scrapers

    The frames of the model hold texts and missing values.  What the model
    keeps of [pd.read_csv] and [to_csv] is their treatment of missing values
    with the default arguments, as the scrapers call them: on loading, a cell
    whose text is one of the library's NA markers becomes a missing value; on
    writing, a missing value becomes the empty text.  [pd.read_csv] also turns
    a column into numbers or truth values when its cells read as such; the
    values of such a frame, and the text that [to_csv] writes for them, are
    outside the model, which follows its column labels only. *)

Abbreviation Row := (gmap string string).

Record DataFrame := mkDataFrame {
  columns : list string;
  rows : list Row
}.

(** What a path of the file system holds: bytes that [pd.read_csv] rejects;
    a CSV table, given by its header and, for each line, the text of its
    cells by column (a column without text on a line is an empty cell); or
    the CSV table that [to_csv] writes from a frame with numbers or truth
    values, of which the model keeps the header. *)
Inductive FileContent :=
  | Unreadable (bytes : string)
  | Csv (header : list string) (lines : list Row)
  | RetypedCsv (header : list string).

Global Instance FileContent_eq_dec : EqDecision FileContent.
Proof. solve_decision. Defined.

Global Instance DataFrame_eq_dec : EqDecision DataFrame.
Proof. solve_decision. Defined.

Abbreviation FS := (gmap string FileContent).

Module Pandas.

(** The cell texts that [pd.read_csv], called as the scrapers call it
    (without [keep_default_na=False] or [na_values]), parses as a missing
    value: the library's default list. *)
Definition na_values : list string :=
  [ ""; "#N/A"; "#N/A N/A"; "#NA"; "-1.#IND"; "-1.#QNAN"; "-NaN"; "-nan";
    "1.#IND"; "1.#QNAN"; "<NA>"; "N/A"; "NA"; "NULL"; "NaN"; "None";
    "n/a"; "nan"; "null" ].

Definition is_na (text : string) : bool := bool_decide (text ∈ na_values).

(** [pd.DataFrame(records)] for a list of dicts: one row per dict, one
    column per key; a key that a dict lacks is a missing value in its row.
    (pandas orders the columns by first appearance; a [gmap] keeps no
    insertion order, and nothing below depends on the column order.) *)
Definition DataFrame_of (records : list Row) : DataFrame :=
  mkDataFrame (PyDict.fromkeys (records ≫= λ r, (map_to_list r).*1)) records.

(** [df[cols]]: the columns of [cols], in that order. *)
Definition select (cols : list string) (df : DataFrame) : DataFrame :=
  mkDataFrame cols
    ((λ r : Row, filter (λ kv : string * string, kv.1 ∈ cols) r) <$> rows df).

(** [df[col] = value]: a scalar assigned to a whole column. *)
Definition set_column (col value : string) (df : DataFrame) : DataFrame :=
  mkDataFrame
    (if bool_decide (col ∈ columns df) then columns df else columns df ++ [col])
    ((λ r : Row, <[col := value]> r) <$> rows df).

(** [pd.concat([df1, df2], ignore_index=True)]: the rows of [df1] followed by
    those of [df2], over the union of the columns. *)
Definition concat (df1 df2 : DataFrame) : DataFrame :=
  mkDataFrame
    (columns df1 ++ filter (λ c, c ∉ columns df1) (columns df2))
    (rows df1 ++ rows df2).

(** The values of a row in the columns of [subset]; two missing values
    compare equal, as in [DataFrame.duplicated]. *)
Definition key_of (subset : list string) (r : Row) : list (option string) :=
  (λ c, r !! c) <$> subset.

(** Rows in order, skipping each row whose key was already seen. *)
Fixpoint keep_first (subset : list string) (seen : list (list (option string)))
    (l : list Row) : list Row :=
  match l with
  | [] => []
  | r :: l' =>
      if bool_decide (key_of subset r ∈ seen)
      then keep_first subset seen l'
      else r :: keep_first subset (key_of subset r :: seen) l'
  end.

(** [df.drop_duplicates(subset=subset, keep='first')]; [None] is the
    [KeyError] raised when a column of [subset] is not a column of [df]. *)
Definition drop_duplicates (subset : list string) (df : DataFrame)
    : option DataFrame :=
  if bool_decide (Forall (λ c, c ∈ columns df) subset)
  then Some (mkDataFrame (columns df) (keep_first subset [] (rows df)))
  else None.

(** The characters of the cell texts that [pd.read_csv] converts: integers
    and floats (digits, sign, decimal point, exponent, surrounding blanks),
    [inf] and [infinity], and the truth values [True] and [False], in upper
    or lower case. *)
Definition LITERAL_CHARS : string := "0123456789+-.eEaAfFiIlLnNrRsStTuUyY".

Definition literal_char (c : ascii) : bool :=
  PyStr.is_space c || PyStr.contains (String c EmptyString) LITERAL_CHARS.

(** A text that is loaded as a text whatever else its column holds: it has
    a character that none of those literals has.  (A sufficient test: pandas
    also keeps a text such as "stale", which fails it.) *)
Fixpoint is_text (cell : string) : bool :=
  match cell with
  | EmptyString => false
  | String c rest => negb (literal_char c) || is_text rest
  end.

(** A cell that is loaded as a missing value or as its own text. *)
Definition plain (cell : string) : bool := is_na cell || is_text cell.

(** A dict, or a row, all of whose values are plain. *)
Definition plain_row (r : Row) : Prop :=
  map_Forall (λ _ cell, plain cell = true) r.

(** A table all of whose cells are plain, each in a column of the header:
    [pd.read_csv] loads it into a frame of texts and missing values. *)
Definition plain_table (header : list string) (lines : list Row) : Prop :=
  Forall (map_Forall (λ c cell, c ∈ header ∧ plain cell = true)) lines.

(** One line of a table of plain cells as [pd.read_csv] loads it: cells
    whose text is in [na_values] become missing values, the others are their
    texts. *)
Definition read_row (line : Row) : Row :=
  filter (λ kv : string * string, is_na kv.2 = false) line.

(** What [pd.read_csv] returns: a frame of texts, or a frame in which some
    cell may be a number or a truth value, given by its column labels. *)
Inductive Loaded :=
  | Texts (df : DataFrame)
  | Retyped (labels : list string).

(** [df.columns]. *)
Definition labels (loaded : Loaded) : list string :=
  match loaded with
  | Texts df => columns df
  | Retyped labels => labels
  end.

(** [pd.read_csv(path)]; [None] is the exception it raises. *)
Definition read_csv (content : FileContent) : option Loaded :=
  match content with
  | Unreadable _ => None
  | Csv header lines =>
      if bool_decide (plain_table header lines)
      then Some (Texts (mkDataFrame header (read_row <$> lines)))
      else Some (Retyped header)
  | RetypedCsv header => Some (Retyped header)
  end.

(** The text [to_csv] writes for the cell of [r] in column [c]: a missing
    value is written as the empty string (the default [na_rep]). *)
Definition cell_text (r : Row) (c : string) : string := default "" (r !! c).

Definition write_row (cols : list string) (r : Row) : Row :=
  foldr (λ c line, <[c := cell_text r c]> line) ∅ cols.

(** [df.to_csv(path, index=False)] for a frame of texts: the content
    written. *)
Definition to_csv (df : DataFrame) : FileContent :=
  Csv (columns df) (write_row (columns df) <$> rows df).

End Pandas.

(** ** The file system calls *)

Module Os.

(** [os.path.exists(path)]. *)
Definition exists_ (path : string) (fs : FS) : bool :=
  bool_decide (is_Some (fs !! path)).

(** [os.rename(src, dst)] with POSIX semantics: a file at [dst] is
    replaced, and renaming a file to itself changes nothing. *)
Definition rename (src dst : string) (fs : FS) : FS :=
  match fs !! src with
  | Some content => <[dst := content]> (delete src fs)
  | None => fs
  end.

End Os.

(** ** web2.py: the appending scraper *)

Module Web2.

(** A listing card as the extractor sees it: [find_element(By.CSS_SELECTOR,
    selector).text], or [None] where [find_element] raises. *)
Definition Listing := string → option string.

Definition FIELDS : list string :=
  [ "Property Title"; "Location"; "Price"; "Property Type"; "Area";
    "Bedrooms"; "Furnishing"; "Posted By"; "Rating" ].

(** The dict literal that [extract_property_data] starts from. *)
Definition blank : Row :=
  foldr (λ f d, <[f := "N/A"]> d) ∅ FIELDS.

(** [listing.find_element(By.CSS_SELECTOR, sel).text.strip()] inside its
    [try]: nothing when the call raises. *)
Definition text_of (listing : Listing) (sel : string) : option string :=
  PyStr.strip <$> listing sel.

(** The title: the heading, and in the [except] clause the first [h2]. *)
Definition title (listing : Listing) : option string :=
  match text_of listing ".tupleNew__propertyHeading, a.tupleNew__propertyHeading" with
  | Some text => Some text
  | None => text_of listing "h2"
  end.

Definition price (listing : Listing) : option string :=
  match text_of listing ".tupleNew__priceValWrap span" with
  | Some text => Some text
  | None => text_of listing ".tupleNew__priceValWrap"
  end.

Definition bedrooms (listing : Listing) : option string :=
  bedroom_text ← text_of listing ".tupleNew__perSqftWrap";
  if PyStr.contains "Bedroom" bedroom_text then Some bedroom_text else None.

Definition area (listing : Listing) : option string :=
  area_text ← text_of listing ".tupleNew__perSqftWrap__ellipsis";
  if bool_decide (area_text ≠ "") then Some area_text else None.

(** The guarded assignments of [extract_property_data], in their order. *)
Definition extracted (listing : Listing) : list (string * option string) :=
  [ ("Property Title", title listing);
    ("Location", text_of listing ".tupleNew__locationName");
    ("Rating", text_of listing ".tupleNew__locRatings span");
    ("Furnishing", text_of listing ".tupleNew__furnished");
    ("Property Type", text_of listing ".tupleNew__propType");
    ("Price", price listing);
    ("Bedrooms", bedrooms listing);
    ("Area", area listing) ].

(** [extract_property_data(listing)]; [None] is the returned [None]. *)
Definition extract_property_data (listing : Listing) : option Row :=
  let property_data := PyDict.assign blank (extracted listing) in
  let title := default "N/A" (property_data !! "Property Title") in
  if bool_decide (title = "N/A") || (String.length title <? 3)%nat
  then None else Some property_data.

(** The natural key of the persisted table. *)
Definition KEY : list string := ["Property Title"; "Location"].

Definition natural_key : Row → list (option string) := Pandas.key_of KEY.

Definition backup_path (output_path stamp : string) : string :=
  PyStr.replace ".csv" ("_backup_" +:+ stamp +:+ ".csv") output_path.

(** [new_df]: the batch as a table, with its [Scraped_Date] column. *)
Definition new_frame (properties : list Row) (scraped_date : string) : DataFrame :=
  Pandas.set_column "Scraped_Date" scraped_date (Pandas.DataFrame_of properties).

(** The body of the inner [try]: load the table, put the old rows before
    the new ones, drop duplicates, write.  The result is the table written,
    [None] when a call raises.  Of a loaded frame with numbers or truth values
    the model follows the column labels, on which it depends whether
    [drop_duplicates] raises [KeyError]. *)
Definition merge (content : FileContent) (new_df : DataFrame) : option FileContent :=
  existing_df ← Pandas.read_csv content;
  match existing_df with
  | Pandas.Texts existing_df =>
      Pandas.to_csv
        <$> Pandas.drop_duplicates KEY (Pandas.concat existing_df new_df)
  | Pandas.Retyped labels =>
      let labels := labels ++ filter (λ c, c ∉ labels) (columns new_df) in
      if bool_decide (Forall (λ c, c ∈ labels) KEY)
      then Some (RetypedCsv labels) else None
  end.

(** [save_to_csv(properties, output_path)].  [scraped_date] and [stamp] are
    the two readings of the clock ('%Y-%m-%d %H:%M:%S' for the
    [Scraped_Date] column, '%Y%m%d_%H%M%S' for the backup name).  The result
    is the returned boolean and the file system after the call; the outer
    [except] returns [False]. *)
Definition save_to_csv (properties : list Row) (output_path : string)
    (scraped_date stamp : string) (fs : FS) : bool * FS :=
  if bool_decide (properties = []) then (false, fs)
  else
    let new_df := new_frame properties scraped_date in
    match fs !! output_path with
    | Some content =>
        match merge content new_df with
        | Some written => (true, <[output_path := written]> fs)
        | None =>
            let backup := backup_path output_path stamp in
            let fs :=
              if Os.exists_ output_path fs
              then Os.rename output_path backup fs else fs in
            (true, <[output_path := Pandas.to_csv new_df]> fs)
        end
    | None =>
        match Pandas.drop_duplicates KEY new_df with
        | Some deduped => (true, <[output_path := Pandas.to_csv deduped]> fs)
        | None => (false, fs)
        end
    end.

(** A record that carries both fields of the natural key. *)
Definition keyed (p : Row) : Prop := Forall (λ c, is_Some (p !! c)) KEY.

(** The table stored at a path, as text: the lines of a CSV file; nothing
    for a file that is absent or unreadable, or whose lines the model does
    not hold. *)
Definition table_at (path : string) (fs : FS) : list Row :=
  match fs !! path with
  | Some (Csv _ lines) => lines
  | _ => []
  end.

(** The natural key of a line of the file, as text. *)
Definition key_text (line : Row) : list string := Pandas.cell_text line <$> KEY.

(** The paths of [main]: [os.path.join(OUTPUT_FOLDER, OUTPUT_FILE)]. *)
Definition OUTPUT_PATH : string := "data/data.csv".

(** *** The page loop and [main] *)

Definition BASE_URL : string :=
  "https://www.99acres.com/search/property/rent/residential/delhi".
Definition SEARCH_PARAMS : string :=
  "?city=1075722&preference=P&area_unit=1&res_com=R".
Definition TOTAL_PAGES : Z := 1.
Definition MAX_RETRIES : nat := 2.

(** The URL that [scrape_page] loads for a page number. *)
Definition page_url (page_number : Z) : string :=
  if bool_decide (page_number = 1%Z) then BASE_URL +:+ SEARCH_PARAMS
  else BASE_URL +:+ SEARCH_PARAMS +:+ "&page=" +:+ pretty page_number.

(** A loaded page as [scrape_page] sees it: for a selector, the elements
    that [driver.find_elements] returns, or [None] where the call raises. *)
Definition Page := string → option (list Listing).

Definition LISTING_SELECTORS : list string :=
  [ "div[class*='tupleNew__']"; ".tupleNew__locAndTags"; "[id*='tuple']" ].

(** The test for a valid property card: [find_elements] finds a heading or
    a price inside the element. *)
Definition is_card (elem : Listing) : bool :=
  bool_decide (is_Some (elem ".tupleNew__propertyHeading"))
  || bool_decide (is_Some (elem ".tupleNew__priceValWrap")).

(** The loop over [listing_selectors]: the valid cards of the first
    selector that has at least five of them, [[]] when none has. *)
Fixpoint find_listings (page : Page) (selectors : list string) : list Listing :=
  match selectors with
  | [] => []
  | selector :: rest =>
      match page selector with
      | None => find_listings page rest
      | Some elements =>
          let valid_elements := filter (λ elem, is_card elem = true) elements in
          if bool_decide (valid_elements ≠ []) && (5 <=? length valid_elements)%nat
          then valid_elements
          else find_listings page rest
      end
  end.

(** The loop over [listings[:30]]. *)
Definition extract_listings (listings : list Listing) : list Row :=
  omap (λ listing,
          prop ← extract_property_data listing;
          if bool_decide (prop ≠ ∅)
             && bool_decide (prop !! "Property Title" ≠ Some "N/A")
          then Some prop else None)
       (take 30 listings).

(** How a call ends: with a returned value, or with an exception that
    leaves the function. *)
Inductive Outcome (A : Type) :=
  | Returned (value : A)
  | Raised.
Arguments Returned {A} value.
Arguments Raised {A}.

Global Instance Outcome_eq_dec `{EqDecision A} : EqDecision (Outcome A).
Proof. solve_decision. Defined.

(** The [for attempt in range(1, MAX_RETRIES + 1)] loop of [scrape_page].
    [load attempt] is the page that [driver.get(url)] shows at that attempt,
    [None] where it raises.  web2.py calls [save_debug_info] without defining
    or importing it: the call in the [try] (no listings found) raises
    [NameError], which the [except Exception] clause catches, and the call in
    that clause raises it again, out of [scrape_page]. *)
Fixpoint attempts (load : nat → option Page) (remaining : list nat)
    : Outcome (list Row) :=
  match remaining with
  | [] => Returned []
  | attempt :: rest =>
      match load attempt with
      | None => Raised
      | Some page =>
          let listings := find_listings page LISTING_SELECTORS in
          if bool_decide (listings = []) then Raised
          else
            let properties := extract_listings listings in
            if bool_decide (properties ≠ []) then Returned properties
            else attempts load rest
      end
  end.

(** [scrape_page(driver, page_number)]; [browser url attempt] is what the
    driver shows for the URL at that attempt. *)
Definition scrape_page (browser : string → nat → option Page) (page_number : Z)
    : Outcome (list Row) :=
  attempts (browser (page_url page_number)) (seq 1 MAX_RETRIES).

(** The [for page in range(1, TOTAL_PAGES + 1)] loop of [main], with its
    [break] after an empty first page. *)
Fixpoint scrape_pages (browser : string → nat → option Page) (pages : list Z)
    (all_properties : list Row) : Outcome (list Row) :=
  match pages with
  | [] => Returned all_properties
  | page :: rest =>
      match scrape_page browser page with
      | Raised => Raised
      | Returned data =>
          let all_properties :=
            if bool_decide (data ≠ []) then all_properties ++ data
            else all_properties in
          if bool_decide (page = 1%Z) && bool_decide (data = [])
          then Returned all_properties
          else scrape_pages browser rest all_properties
      end
  end.

(** [main()]: the file system it leaves.  [driver_built] tells whether
    [build_driver] returns; an exception of [build_driver] or of
    [scrape_page] ends in the [except Exception] clause, which only logs. *)
Definition main (driver_built : bool) (browser : string → nat → option Page)
    (scraped_date stamp : string) (fs : FS) : FS :=
  if driver_built then
    match scrape_pages browser (seqZ 1%Z TOTAL_PAGES) [] with
    | Raised => fs
    | Returned all_properties =>
        if bool_decide (all_properties ≠ [])
        then (save_to_csv all_properties OUTPUT_PATH scraped_date stamp fs).2
        else fs
    end
  else fs.

(** What an attempt of [scrape_page] can show: a load that raises or finds
    no listing, and a load that finds listings none of which gives a record. *)
Definition no_listings (shown : option Page) : Prop :=
  match shown with
  | None => True
  | Some page => find_listings page LISTING_SELECTORS = []
  end.

Definition no_record (shown : option Page) : Prop :=
  match shown with
  | None => False
  | Some page =>
      find_listings page LISTING_SELECTORS ≠ []
      ∧ extract_listings (find_listings page LISTING_SELECTORS) = []
  end.

(** A title that [extract_property_data] accepts. *)
Definition valid_title (d : Row) : Prop :=
  ∃ title, d !! "Property Title" = Some title
           ∧ title ≠ "N/A" ∧ 3 ≤ String.length title.

End Web2.

(** ** The listing-page link filter shared by fastscrap3.py and webscrap2.py *)

Module Links.

Definition base_url : string := "https://www.99acres.com".

(** The keyword heuristics and the 'spid-' marker. *)
Definition is_property_link (href : string) : bool :=
  let lo := PyStr.lower href in
  (PyStr.contains "bhk" lo || PyStr.contains "bedroom" lo
   || PyStr.contains "independent" lo || PyStr.contains "flat" lo
   || PyStr.contains "apartment" lo)
  && PyStr.contains "spid-" lo.

(** Normalisation to an absolute URL. *)
Definition absolute (href : string) : string :=
  if PyStr.startswith "http" href then href
  else if PyStr.startswith "/" href then base_url +:+ href
  else base_url +:+ "/" +:+ href.

(** What one hyperlink contributes to the result of the loops below: its
    absolute URL when it passes the three tests, nothing otherwise. *)
Definition kept (href : string) : option string :=
  if bool_decide (href = "") then None
  else if is_property_link href then
    if PyStr.contains "/search/" (absolute href) then None
    else Some (absolute href)
  else None.

End Links.

(** ** webscrap2.py: the sequential scraper's listing extraction *)

Module WebScrap2.

(** The loop of [extract_urls_from_page] over [all_links] (the [href] of
    each anchor), with [property_urls] as accumulator. *)
Fixpoint collect_links (property_urls all_links : list string) : list string :=
  match all_links with
  | [] => property_urls
  | href :: rest =>
      if bool_decide (href = "") then collect_links property_urls rest
      else if Links.is_property_link href then
        let href := Links.absolute href in
        if negb (PyStr.contains "/search/" href)
        then collect_links (property_urls ++ [href]) rest
        else collect_links property_urls rest
      else collect_links property_urls rest
  end.

(** [extract_urls_from_page] from the hyperlinks of the loaded page. *)
Definition extract_urls (all_links : list string) : list string :=
  PyDict.fromkeys (collect_links [] all_links).

End WebScrap2.

(** ** fastscrap3.py: the optimized scraper *)

Module FastScrap3.

(** The loop of [extract_urls_from_page] over [all_links]. *)
Fixpoint collect_links (property_urls all_links : list string) : list string :=
  match all_links with
  | [] => property_urls
  | href :: rest =>
      if bool_decide (href = "") then collect_links property_urls rest
      else if Links.is_property_link href then
        let href := Links.absolute href in
        if negb (PyStr.contains "/search/" href)
           && bool_decide (href ∉ property_urls)
        then collect_links (property_urls ++ [href]) rest
        else collect_links property_urls rest
      else collect_links property_urls rest
  end.

Definition extract_urls (all_links : list string) : list string :=
  PyDict.fromkeys (collect_links [] all_links).

(** A detail page after [BeautifulSoup(page_source)]: the stripped text of
    its first [h1], if any, and [soup.get_text()]. *)
Record Soup := mkSoup {
  h1 : option string;
  all_text : string
}.

(** A successful [re.search]: [group(0)] and [group(1)]. *)
Record Match := mkMatch {
  group0 : string;
  group1 : string
}.

Definition COLUMNS : list string :=
  [ "Property_Title"; "Location"; "Address"; "Price";
    "Rate_per_sqft"; "Deposit"; "Property_Type"; "Room_Type";
    "Bedrooms"; "Bathrooms"; "Balconies"; "Furnishing"; "Carpet_Area";
    "Available_From"; "Available_For"; "Posted_By"; "Posted_Date";
    "Rating"; "Nearby_Places"; "Scraped_Date"; "Property_URL" ].

(** The fields that the dict literal of [extract_property_details] sets to
    the sentinel. *)
Definition SENTINEL_FIELDS : list string :=
  [ "Property_Title"; "Location"; "Address"; "Price";
    "Rate_per_sqft"; "Deposit"; "Property_Type"; "Room_Type";
    "Bedrooms"; "Bathrooms"; "Balconies"; "Furnishing"; "Carpet_Area";
    "Available_From"; "Available_For"; "Posted_By"; "Posted_Date";
    "Rating"; "Nearby_Places" ].

Definition blank (property_url scraped_date : string) : Row :=
  <["Scraped_Date" := scraped_date]>
    (<["Property_URL" := property_url]>
      (foldr (λ f d, <[f := "N/A"]> d) ∅ SENTINEL_FIELDS)).

Definition MONTHS : string :=
  "(?:Jan|Feb|Mar|Apr|May|Jun|Jul|Aug|Sep|Oct|Nov|Dec)".

Section World.

(** The regular-expression engine: [re.search(pattern, text)] with or
    without [re.IGNORECASE], and [re.findall(pattern, text)]. *)
Variable re_search : string → bool → string → option Match.
Variable re_findall : string → string → list string.

(** The site: the hyperlinks of the listing page fetched for
    [(property_type, city, page_num)] and the parsed detail page at a
    URL; [None] where no driver is available or the fetch raises. *)
Variable listing : string → string → Z → option (list string).
Variable detail : string → option Soup.

(** The clock reading taken when the details of a URL are extracted. *)
Variable clock : string → string.

(** The order in which [as_completed] yields the submitted tasks. *)
Variable completed_pages : list Z → list Z.
Variable completed_urls : list string → list string.

Definition furnishing (text : string) : option string :=
  if PyStr.contains "Semi-Furnished" text then Some "Semi-Furnished"
  else if PyStr.contains "Furnished" text
          && negb (PyStr.contains "Unfurnished" text) then Some "Furnished"
  else if PyStr.contains "Unfurnished" text then Some "Unfurnished"
  else None.

(** The loop over [location_keywords], left at the first keyword whose
    search succeeds. *)
Fixpoint location (keywords : list string) (text : string) : option string :=
  match keywords with
  | [] => None
  | keyword :: rest =>
      if PyStr.contains (PyStr.lower keyword) (PyStr.lower text) then
        match re_search (keyword +:+ "[^\n]*") true text with
        | Some m => Some (PyStr.take 80 (PyStr.strip (group0 m)))
        | None => location rest text
        end
      else location rest text
  end.

Definition posted_by (text : string) : option string :=
  if PyStr.contains "Dealer" text then Some "Dealer"
  else if PyStr.contains "Owner" text then Some "Owner"
  else None.

Definition available_from (text : string) : option string :=
  if PyStr.contains "Immediate" text || PyStr.contains "immediate" text
  then Some "Immediate"
  else (λ m, PyStr.strip (group1 m)) <$>
         re_search ("Available\s*(?:from)?[:\s]*(\d{1,2}\s*" +:+ MONTHS +:+ ")")
           true text.

Definition property_type (text : string) : option string :=
  if PyStr.contains "Independent" text then Some "Independent"
  else if PyStr.contains "Apartment" text || PyStr.contains "Flat" text
  then Some "Apartment/Flat"
  else if PyStr.contains "Villa" text then Some "Villa"
  else None.

(** The guarded assignments of [extract_property_details], in their
    order: each field with the value found for it, if any. *)
Definition extracted (soup : Soup) : list (string * option string) :=
  let text := all_text soup in
  [ ("Property_Title", h1 soup);
    ("Price",
     (λ m, PyStr.strip (group0 m)) <$>
       re_search "₹\s*([\d,.\s]+)(?:/month|per month|/yr|annual|Month)?"
         false text);
    ("Bedrooms",
     group1 <$> re_search "(\d+)\s*(?:BHK|Bedroom|bed)" true text);
    ("Bathrooms",
     group1 <$> re_search "(\d+)\s*(?:Bathroom|bath)" true text);
    ("Balconies",
     group1 <$> re_search "(\d+)\s*(?:Balcon)" true text);
    ("Carpet_Area",
     (λ m, group1 m +:+ " sq.ft") <$>
       re_search "([\d,]+)\s*(?:sq\.?\s*ft|sqft|Carpet Area)" true text);
    ("Rate_per_sqft",
     (λ m, "₹" +:+ group1 m) <$>
       re_search "₹\s*([\d,]+)\s*(?:per|/)\s*sq\.?\s*ft" true text);
    ("Deposit",
     (λ m, PyStr.replace PyStr.LF " " (group1 m)) <$>
       re_search "(?:Deposit|Advance)[:\s]*(₹[\d,\s]+)" true text);
    ("Furnishing", furnishing text);
    ("Location",
     location ["Paschim Vihar"; "West Delhi"; "Delhi"; "Nagar"; "Sector"; "Phase"]
       text);
    ("Address",
     (λ a, PyStr.take 100 (PyStr.strip a)) <$>
       head (re_findall
               "(?:RWA|Block|Sector|Flat|House|Society|Building|Phase)[^\n]{5,100}"
               text));
    ("Posted_By", posted_by text);
    ("Posted_Date",
     (λ m, PyStr.strip (group1 m)) <$>
       re_search ("(?:Posted|Listed)\s*(?:on)?\s*(\d{1,2}\s*" +:+ MONTHS
                  +:+ "[^\n]{0,20})") true text);
    ("Available_From", available_from text);
    ("Property_Type", property_type text) ].

Definition fill (soup : Soup) (d : Row) : Row :=
  PyDict.assign d (extracted soup).

(** [extract_property_details(property_url)]: [None] when no driver is
    available or the [try] raises, the filled dict otherwise. *)
Definition extract_property_details (property_url : string) : option Row :=
  match detail property_url with
  | None => None
  | Some soup => Some (fill soup (blank property_url (clock property_url)))
  end.

(** [extract_urls_from_page(page_num, property_type, city)]. *)
Definition extract_urls_from_page (property_type city : string) (page_num : Z)
    : list string :=
  match listing property_type city page_num with
  | None => []
  | Some all_links => extract_urls all_links
  end.

(** [range(36, num_pages + 1)]. *)
Definition pages (num_pages : Z) : list Z := seqZ 36 (num_pages + 1 - 36).

(** STEP 2 of [scrape_all]: the loop over [as_completed(future_to_url)],
    [completed] being the URLs in the order their tasks complete. *)
Definition collect_details (properties : list Row) (completed : list string)
    : list Row :=
  foldl (λ props url,
           match extract_property_details url with
           | Some prop_data =>
               if bool_decide (prop_data ≠ ∅) then props ++ [prop_data] else props
           | None => props
           end)
        properties completed.

(** The name of the file written by [save_to_csv]. *)
Definition filename (stamp : string) : string :=
  "dataset_optimized_" +:+ stamp +:+ ".csv".

(** The table written by [save_to_csv]: the records, a column of
    sentinels for each column of [COLUMNS] that no record has, and the
    columns in the order of [COLUMNS]. *)
Definition output_frame (properties : list Row) : DataFrame :=
  let df := Pandas.DataFrame_of properties in
  let df :=
    foldl (λ df col,
             if bool_decide (col ∈ columns df) then df
             else Pandas.set_column col "N/A" df)
          df COLUMNS in
  Pandas.select COLUMNS df.

(** [save_to_csv(self)]: the file system after the call. *)
Definition save_to_csv (properties : list Row) (stamp : string) (fs : FS) : FS :=
  <[filename stamp := Pandas.to_csv (output_frame properties)]> fs.

(** STEP 1 of [scrape_all]: the URLs of the submitted pages, in the order
    the pages complete, without repetitions. *)
Definition walk (property_type city : string) (submitted : list Z) : list string :=
  PyDict.fromkeys
    (completed_pages submitted ≫= extract_urls_from_page property_type city).

(** [scrape_all(property_type, city, num_pages)] on a scraper whose
    [self.properties] is [properties]: the returned boolean, the pages
    submitted to the walker, [self.properties] and the file system after
    the call.  [stamp] is the clock reading taken by [save_to_csv]. *)
Definition scrape_all (property_type city : string) (num_pages : Z)
    (properties : list Row) (stamp : string) (fs : FS)
    : bool * list Z * list Row * FS :=
  let submitted := pages num_pages in
  let all_urls := walk property_type city submitted in
  if bool_decide (all_urls = []) then (false, submitted, properties, fs)
  else
    let properties := collect_details properties (completed_urls all_urls) in
    if bool_decide (properties ≠ [])
    then (true, submitted, properties, save_to_csv properties stamp fs)
    else (false, submitted, properties, fs).

(** The default of the [num_pages] argument. *)
Definition DEFAULT_NUM_PAGES : Z := 35.

End World.

End FastScrap3.

(** ** webscrap2.py: the sequential scraper's fetches, table and run *)

Module WebScrap2Scraper.

Definition NUM_PAGES : Z := 30.
Definition RETRY_ATTEMPTS : nat := 3.

(** The columns of [save_to_csv]. *)
Definition COLUMNS : list string :=
  [ "Property_Title"; "Location"; "Address"; "Price";
    "Rate_per_sqft"; "Deposit"; "Property_Type"; "Room_Type";
    "Bedrooms"; "Bathrooms"; "Balconies"; "Furnishing"; "Carpet_Area";
    "Available_From"; "Available_For"; "Posted_By"; "Posted_Date";
    "Rating"; "Nearby_Places"; "Scraped_Date" ].

(** The characters that [re.sub(r'[^0-9a-zA-Z]', '_', url)] keeps. *)
Definition is_alnum (c : ascii) : bool :=
  let n := Ascii.nat_of_ascii c in
  ((48 <=? n)%nat && (n <=? 57)%nat)
  || ((65 <=? n)%nat && (n <=? 90)%nat)
  || ((97 <=? n)%nat && (n <=? 122)%nat).

Definition underscore : ascii := Ascii.ascii_of_nat 95.

(** [re.sub(r'[^0-9a-zA-Z]', '_', url)]. *)
Fixpoint sanitize (url : string) : string :=
  match url with
  | EmptyString => EmptyString
  | String c rest => String (if is_alnum c then c else underscore) (sanitize rest)
  end.

(** The name of the debug dump of a page. *)
Definition debug_file (url stamp : string) : string :=
  "debug_" +:+ PyStr.take 60 (sanitize url) +:+ "_" +:+ stamp +:+ ".html".

(** The listing URL of a page number. *)
Definition listing_url (property_type city : string) (page_num : Z) : string :=
  let first :=
    Links.base_url +:+ "/search/property/" +:+ property_type +:+ "/" +:+ city
    +:+ "?city=1075722&preference=R&area_unit=1&res_com=R&isPreLeased=N" in
  if bool_decide (page_num = 1%Z) then first
  else first +:+ "&page=" +:+ pretty page_num.

(** [save_to_csv]'s table: as in fastscrap3.py, over the columns above. *)
Definition output_frame (properties : list Row) : DataFrame :=
  let df := Pandas.DataFrame_of properties in
  let df :=
    foldl (λ df col,
             if bool_decide (col ∈ columns df) then df
             else Pandas.set_column col "N/A" df)
          df COLUMNS in
  Pandas.select COLUMNS df.

Definition filename (stamp : string) : string := "dataset_" +:+ stamp +:+ ".csv".

(** [save_to_csv(self)]: the file system after the call. *)
Definition save_to_csv (properties : list Row) (stamp : string) (fs : FS) : FS :=
  <[filename stamp := Pandas.to_csv (output_frame properties)]> fs.

Section World.

Variable re_search : string → bool → string → option FastScrap3.Match.
Variable re_findall : string → string → list string.

(** The browser: the page source after [driver.get(url)] at the given
    attempt, [None] where the load raises. *)
Variable load : string → nat → option string.

(** [BeautifulSoup(page_src)]: the [href]s of its anchors, and its first
    [h1] with [get_text(separator="\n")]. *)
Variable links_of : string → list string.
Variable soup_of : string → FastScrap3.Soup.

(** The clock readings: for the dump of a load, and for the [Scraped_Date]
    of a URL. *)
Variable dump_stamp : string → nat → string.
Variable scraped_date : string → string.

(** The debug dumps written so far, as (name, content), latest last. *)
Definition Dumps := list (string * string).

(** The [for attempt in range(1, retries + 1)] loop of
    [_get_page_source_with_retries]. *)
Fixpoint load_attempts (url : string) (retries : nat) (remaining : list nat)
    (dumps : Dumps) : option string * Dumps :=
  match remaining with
  | [] => (None, dumps)
  | attempt :: rest =>
      match load url attempt with
      | Some page_source =>
          (Some page_source,
           dumps ++ [(debug_file url (dump_stamp url attempt), page_source)])
      | None =>
          if bool_decide (attempt = retries) then (None, dumps)
          else load_attempts url retries rest dumps
      end
  end.

(** [_get_page_source_with_retries(url, retries)]. *)
Definition get_page_source_with_retries (url : string) (retries : nat)
    (dumps : Dumps) : option string * Dumps :=
  load_attempts url retries (seq 1 retries) dumps.

(** [if not page_src]: no source, or an empty one. *)
Definition usable (page_src : option string) : option string :=
  match page_src with
  | Some src => if bool_decide (src = "") then None else Some src
  | None => None
  end.

(** [extract_urls_from_page(page_num, property_type, city)]. *)
Definition extract_urls_from_page (property_type city : string) (page_num : Z)
    (dumps : Dumps) : list string * Dumps :=
  let '(page_src, dumps) :=
    get_page_source_with_retries (listing_url property_type city page_num)
      RETRY_ATTEMPTS dumps in
  match usable page_src with
  | None => ([], dumps)
  | Some src => (WebScrap2.extract_urls (links_of src), dumps)
  end.

(** [extract_property_details(property_url)]. *)
Definition extract_property_details (property_url : string) (dumps : Dumps)
    : option Row * Dumps :=
  let property_data :=
    FastScrap3.blank property_url (scraped_date property_url) in
  let '(page_src, dumps) :=
    get_page_source_with_retries property_url RETRY_ATTEMPTS dumps in
  match usable page_src with
  | None => (None, dumps)
  | Some src =>
      (Some (FastScrap3.fill re_search re_findall (soup_of src) property_data),
       dumps)
  end.

(** [range(20, num_pages + 1)]. *)
Definition pages (num_pages : Z) : list Z := seqZ 20 (num_pages + 1 - 20).

(** Step 1 of [scrape_all]: the loop over the pages. *)
Definition collect_urls (property_type city : string) (pages : list Z)
    (dumps : Dumps) : list string * Dumps :=
  foldl (λ '(all_urls, dumps) page,
           let '(urls, dumps) :=
             extract_urls_from_page property_type city page dumps in
           (all_urls ++ urls, dumps))
        ([], dumps) pages.

(** Step 2 of [scrape_all]: the loop over the URLs. *)
Definition collect_details (properties : list Row) (all_urls : list string)
    (dumps : Dumps) : list Row * Dumps :=
  foldl (λ '(properties, dumps) url,
           let '(prop, dumps) := extract_property_details url dumps in
           match prop with
           | Some prop_data =>
               if bool_decide (prop_data ≠ ∅)
               then (properties ++ [prop_data], dumps) else (properties, dumps)
           | None => (properties, dumps)
           end)
        (properties, dumps) all_urls.

(** [scrape_all(property_type, city, num_pages)] on a scraper whose
    [self.properties] is [properties]: the returned boolean,
    [self.properties], the dumps and the file system after the call.
    [driver_ready] is the result of [init_driver]. *)
Definition scrape_all (driver_ready : bool) (property_type city : string)
    (num_pages : Z) (properties : list Row) (stamp : string)
    (dumps : Dumps) (fs : FS) : bool * list Row * Dumps * FS :=
  if driver_ready then
    let '(all_urls, dumps) :=
      collect_urls property_type city (pages num_pages) dumps in
    let all_urls := PyDict.fromkeys all_urls in
    if bool_decide (all_urls = []) then (false, properties, dumps, fs)
    else
      let '(properties, dumps) := collect_details properties all_urls dumps in
      if bool_decide (properties ≠ [])
      then (true, properties, dumps, save_to_csv properties stamp fs)
      else (false, properties, dumps, fs)
  else (false, properties, dumps, fs).

End World.

End WebScrap2Scraper.

(** ** Concrete tables and batches *)

Module Fixtures.

(** A record as [Web2.extract_property_data] returns it. *)
Definition record (title location price : string) : Row :=
  <["Price" := price]>
    (<["Location" := location]> (<["Property Title" := title]> Web2.blank)).

(** A regular-expression engine on a text in which nothing matches. *)
Definition no_match : string → bool → string → option FastScrap3.Match :=
  λ _ _ _, None.

Definition no_findall : string → string → list string := λ _ _, [].

(** A site whose detail pages are empty documents: no [h1], no text. *)
Definition empty_pages : string → option FastScrap3.Soup :=
  λ _, Some (FastScrap3.mkSoup None "").

Definition noon : string → string := λ _, "2024-02-02 12:00:00".

(** Ten detail URLs. *)
Definition ten_urls : list string :=
  (λ n, "https://www.99acres.com/2-bhk-flat-spid-" +:+ n)
    <$> ["0"; "1"; "2"; "3"; "4"; "5"; "6"; "7"; "8"; "9"].

(** A site on which the pages of two of them cannot be fetched. *)
Definition two_fail : string → option FastScrap3.Soup :=
  λ url,
    if bool_decide (url ∈ ["https://www.99acres.com/2-bhk-flat-spid-3";
                           "https://www.99acres.com/2-bhk-flat-spid-7"])
    then None else Some (FastScrap3.mkSoup (Some "2 BHK Flat") "").

(** A site whose listing pages all link to one property. *)
Definition one_link : string → string → Z → option (list string) :=
  λ _ _ _, Some ["/2-bhk-flat-spid-0"].

(** Tasks completing in the order of submission, and in the reverse order. *)
Definition in_order {A} : list A → list A := id.
Definition reversed {A} : list A → list A := reverse.

(** A card whose heading is the two-character text "4B". *)
Definition short_title : Web2.Listing :=
  λ sel,
    if bool_decide
         (sel = ".tupleNew__propertyHeading, a.tupleNew__propertyHeading")
    then Some "4B" else None.

(** The header of a table written by an earlier run of web2.py. *)
Definition HEADER : list string := Web2.FIELDS ++ ["Scraped_Date"].

(** A line of such a table. *)
Definition line (title location price scraped_date : string) : Row :=
  <["Scraped_Date" := scraped_date]> (record title location price).

(** A file system whose table holds one listing. *)
Definition one_listing : FS :=
  {[ Web2.OUTPUT_PATH :=
       Csv HEADER [line "3 BHK Flat" "Dwarka" "45,000" "2024-01-01 10:00:00"] ]}.

(** The first bytes of a file saved as UTF-16 (FF FE, then text), which the
    utf-8-sig decoder of [pd.read_csv] rejects. *)
Definition saved_as_utf16 : string :=
  String (Ascii.ascii_of_nat 255) (String (Ascii.ascii_of_nat 254) "P").

(** A file system whose table cannot be loaded. *)
Definition corrupt : FS := {[ Web2.OUTPUT_PATH := Unreadable saved_as_utf16 ]}.

(** A file system whose table holds a listing whose location the earlier
    run could not determine. *)
Definition unknown_location : FS :=
  {[ Web2.OUTPUT_PATH :=
       Csv HEADER [line "3 BHK Flat" "N/A" "45,000" "2024-01-01 10:00:00"] ]}.

(** A re-scrape of the listing of [one_listing] at another price. *)
Definition rescrape : list Row := [record "3 BHK Flat" "Dwarka" "50,000"].

(** A re-scrape of the listing of [unknown_location] at another price, its
    location again not determined. *)
Definition rescrape_unknown : list Row := [record "3 BHK Flat" "N/A" "50,000"].

(** One card matched twice on a page (the wrapper and a nested block). *)
Definition matched_twice : list Row :=
  [record "3 BHK Flat" "Dwarka" "45,000"; record "3 BHK Flat" "Dwarka" "45,000"].

(** A card without a location element. *)
Definition no_location : list Row := [record "2 BHK Flat" "N/A" "30,000"].

(** A card with every key field found. *)
Definition located : list Row := [record "2 BHK Flat" "Rohini" "30,000"].

End Fixtures.

(** ** Further concrete inputs *)

Module Scenarios.

(** A table kept under a name without the .csv suffix, and unreadable. *)
Definition TABLE : string := "data/table".
Definition corrupt_table : FS :=
  {[ TABLE := Unreadable Fixtures.saved_as_utf16 ]}.

(** A batch of two listings, one of them already in [Fixtures.one_listing]. *)
Definition two_cards : list Row :=
  [ Fixtures.record "3 BHK Flat" "Dwarka" "50,000";
    Fixtures.record "2 BHK Flat" "Rohini" "30,000" ].

(** A card with a heading, a location and a price. *)
Definition card (title location price : string) : Web2.Listing :=
  λ sel,
    if bool_decide (sel = ".tupleNew__propertyHeading, a.tupleNew__propertyHeading")
    then Some title
    else if bool_decide (sel = ".tupleNew__propertyHeading") then Some title
    else if bool_decide (sel = ".tupleNew__locationName") then Some location
    else if bool_decide (sel = ".tupleNew__priceValWrap span") then Some price
    else if bool_decide (sel = ".tupleNew__priceValWrap") then Some price
    else None.

(** A result page with six cards under the first selector, and the records
    of the six. *)
Definition six_cards : Web2.Page :=
  λ sel,
    if bool_decide (sel = "div[class*='tupleNew__']")
    then Some [ card "3 BHK Flat" "Dwarka" "45,000"; card "2 BHK Flat" "Rohini" "30,000";
                card "1 BHK Flat" "Saket" "18,000"; card "4 BHK Villa" "Vasant Kunj" "1.2 Lac";
                card "2 BHK Flat" "Pitampura" "28,000"; card "Studio" "Karol Bagh" "12,000" ]
    else Some [].

Definition six_records : list Row :=
  [ Fixtures.record "3 BHK Flat" "Dwarka" "45,000";
    Fixtures.record "2 BHK Flat" "Rohini" "30,000";
    Fixtures.record "1 BHK Flat" "Saket" "18,000";
    Fixtures.record "4 BHK Villa" "Vasant Kunj" "1.2 Lac";
    Fixtures.record "2 BHK Flat" "Pitampura" "28,000";
    Fixtures.record "Studio" "Karol Bagh" "12,000" ].

(** A page on which no selector finds anything (a block page). *)
Definition blocked : Web2.Page := λ _, Some [].

(** A browser that shows the six cards at every load, and one that is
    blocked at every load. *)
Definition serving : string → nat → option Web2.Page := λ _ _, Some six_cards.
Definition blocking : string → nat → option Web2.Page := λ _ _, Some blocked.

(** A server that refuses the first two loads of every URL and then serves
    a page. *)
Definition third_time : string → nat → option string :=
  λ _ attempt, if (attempt <? 3)%nat then None else Some "<html>3 BHK</html>".

Definition dump_clock : string → nat → string := λ _ _, "20240202_120000".

(** The same server, except that it answers the first listing page of
    rentals in Delhi with a block page at once. *)
Definition first_page_blocked : string → nat → option string :=
  λ url attempt,
    if bool_decide (url = WebScrap2Scraper.listing_url "rent" "delhi" 1)
    then Some "<html>Access Denied</html>"
    else third_time url attempt.

(** Two saves of the optimized scraper in the same second: the records of
    the earlier one, the file it left, and the records of the later one. *)
Definition earlier_records : list Row :=
  [ <["Property_Title" := "3 BHK Flat"]>
      (FastScrap3.blank "https://www.99acres.com/3-bhk-flat-spid-1"
         "2024-02-02 12:00:00") ].

Definition earlier_table : FileContent :=
  Pandas.to_csv (FastScrap3.output_frame earlier_records).

Definition same_second : FS :=
  {[ FastScrap3.filename "20240202_120000" := earlier_table ]}.

Definition later_records : list Row :=
  [ <["Property_Title" := "2 BHK Flat"]>
      (FastScrap3.blank "https://www.99acres.com/2-bhk-flat-spid-0"
         "2024-02-02 12:00:00") ].

(** A site whose listing pages before the 36th cannot be fetched, and whose
    later ones link to one property. *)
Definition late_pages_only : string → string → Z → option (list string) :=
  λ _ _ page,
    if bool_decide (page < 36)%Z then None else Some ["/2-bhk-flat-spid-0"].

End Scenarios.

(** * Properties *)

(** A decidable closed proposition, settled by evaluating its decision. *)
Ltac decide_by_evaluation := apply (bool_decide_unpack _); vm_compute; exact I.

(** ** Deduplication keeps, for each key, the first row that carries it *)

Section KeepFirst.

Variable subset : list string.

Local Abbreviation key := (Pandas.key_of subset).
Local Abbreviation keep := (Pandas.keep_first subset).

Lemma keep_first_filter_key seen l k :
  filter (λ r, key r = k) (keep seen l)
  = if decide (k ∈ seen) then []
    else option_list (head (filter (λ r, key r = k) l)).
Proof.
  revert seen. induction l as [|r l IH]; intros seen; simpl.
  - by destruct (decide (k ∈ seen)).
  - case_bool_decide as Hseen.
    + rewrite IH. destruct (decide (k ∈ seen)) as [Hin|Hnin]; [done |].
      rewrite (filter_cons_False _ r l); [done |]. by intros <-.
    + destruct (decide (key r = k)) as [<-|Hne].
      * rewrite !filter_cons_True by done. rewrite IH.
        rewrite decide_True by (by left). by rewrite decide_False.
      * rewrite !filter_cons_False by done. rewrite IH.
        destruct (decide (k ∈ seen)) as [Hin|Hnin].
        -- rewrite decide_True; [done | by right].
        -- rewrite decide_False; [done |].
           by intros [?|?]%elem_of_cons.
Qed.

Lemma keep_first_elem_of seen l r :
  r ∈ keep seen l → r ∈ l ∧ key r ∉ seen.
Proof.
  revert seen. induction l as [|x l IH]; intros seen; simpl.
  - by intros ?%elem_of_nil.
  - case_bool_decide as Hseen.
    + intros [??]%IH. split; [by right | done].
    + intros [->|Hr]%elem_of_cons; [split; [by left | done] |].
      apply IH in Hr as [? Hr]. split; [by right |].
      intros ?. apply Hr. by right.
Qed.

Lemma keep_first_NoDup seen l : NoDup (key <$> keep seen l).
Proof.
  revert seen. induction l as [|x l IH]; intros seen; simpl.
  - constructor.
  - case_bool_decide as Hseen; [apply IH |].
    rewrite fmap_cons. constructor; [| apply IH].
    intros (r & Heq & Hr)%list_elem_of_fmap.
    apply keep_first_elem_of in Hr as [_ Hr]. set_solver.
Qed.

(** Rows whose keys are pairwise distinct and unseen are all kept. *)
Lemma keep_first_id seen l :
  NoDup (key <$> l) → (∀ r, r ∈ l → key r ∉ seen) → keep seen l = l.
Proof.
  revert seen. induction l as [|x l IH]; intros seen Hnd Hseen; simpl; [done |].
  rewrite fmap_cons in Hnd. apply NoDup_cons in Hnd as [Hx Hnd].
  rewrite (bool_decide_eq_false_2 (key x ∈ seen)) by (apply Hseen; by left).
  f_equal. apply IH; [done |].
  intros r Hr [Heq|Hin]%elem_of_cons.
  - apply Hx. rewrite <- Heq. by apply list_elem_of_fmap_2.
  - by apply (Hseen r); [right |].
Qed.

(** Only membership in [seen] matters. *)
Lemma keep_first_ext seen seen' l :
  (∀ k, k ∈ seen ↔ k ∈ seen') → keep seen l = keep seen' l.
Proof.
  revert seen seen'. induction l as [|x l IH]; intros seen seen' Heq; simpl; [done |].
  rewrite (bool_decide_ext _ _ (Heq (key x))).
  case_bool_decide; [by apply IH |].
  f_equal. apply IH. intros k. rewrite !elem_of_cons. by rewrite Heq.
Qed.

Lemma keep_first_app seen l1 l2 :
  keep seen (l1 ++ l2) = keep seen l1 ++ keep ((key <$> l1) ++ seen) l2.
Proof.
  revert seen. induction l1 as [|x l1 IH]; intros seen; simpl; [done |].
  case_bool_decide as Hseen.
  - rewrite IH. f_equal. apply keep_first_ext. intros k. set_solver.
  - rewrite IH. simpl. do 2 f_equal. apply keep_first_ext. intros k. set_solver.
Qed.

(** Rows whose keys were all seen are all dropped. *)
Lemma keep_first_seen seen l :
  (∀ r, r ∈ l → key r ∈ seen) → keep seen l = [].
Proof.
  induction l as [|x l IH]; intros Hseen; simpl; [done |].
  rewrite (bool_decide_eq_true_2 (key x ∈ seen)) by (apply Hseen; by left).
  apply IH. intros r Hr. apply Hseen. by right.
Qed.

Lemma keep_first_keys seen l k :
  k ∈ key <$> keep seen l ↔ k ∈ key <$> l ∧ k ∉ seen.
Proof.
  revert seen. induction l as [|x l IH]; intros seen; csimpl.
  - rewrite elem_of_nil. naive_solver.
  - case_bool_decide as Hseen; csimpl.
    + rewrite IH, elem_of_cons. split; [intros [??]; by auto |].
      intros [[->|?] ?]; by auto.
    + rewrite !elem_of_cons, IH, elem_of_cons. split.
      * intros [->|[? Hk]]; [by auto |]. split; [by auto |]. by auto.
      * intros [Hk Hnin]. destruct (decide (k = key x)) as [|Hne]; [by left |].
        right. destruct Hk as [|Hk]; [done |]. split; [done |].
        by intros [?|?].
Qed.

End KeepFirst.

(** ** The pandas fragment *)

Lemma elem_of_fromkeys x l : x ∈ PyDict.fromkeys l ↔ x ∈ l.
Proof.
  induction l as [|y l IH]; simpl; [done |].
  rewrite !elem_of_cons, list_elem_of_filter, IH.
  destruct (decide (x = y)); naive_solver.
Qed.

Lemma NoDup_fromkeys l : NoDup (PyDict.fromkeys l).
Proof.
  induction l as [|y l IH]; simpl; constructor.
  - rewrite list_elem_of_filter. naive_solver.
  - by apply NoDup_filter.
Qed.

Lemma elem_of_columns_DataFrame_of c records :
  c ∈ columns (Pandas.DataFrame_of records) ↔ ∃ r, r ∈ records ∧ is_Some (r !! c).
Proof.
  unfold Pandas.DataFrame_of; simpl.
  rewrite elem_of_fromkeys, list_elem_of_bind. split.
  - intros (r & Hc & Hr). exists r. split; [done |].
    apply list_elem_of_fmap in Hc as ([c' v] & -> & Hcv).
    apply elem_of_map_to_list in Hcv. by exists v.
  - intros (r & Hr & [v Hv]). exists r. split; [| done].
    apply list_elem_of_fmap. exists (c, v). split; [done |].
    by apply elem_of_map_to_list.
Qed.

Lemma columns_set_column c col value df :
  c ∈ columns df → c ∈ columns (Pandas.set_column col value df).
Proof.
  intros Hc. unfold Pandas.set_column; simpl.
  case_bool_decide; [done |]. apply elem_of_app. by left.
Qed.

Lemma drop_duplicates_Some subset df :
  Forall (λ c, c ∈ columns df) subset →
  Pandas.drop_duplicates subset df
  = Some (mkDataFrame (columns df) (Pandas.keep_first subset [] (rows df))).
Proof. intros H. unfold Pandas.drop_duplicates. by rewrite bool_decide_eq_true_2. Qed.

Lemma write_row_lookup cols r c :
  Pandas.write_row cols r !! c
  = if decide (c ∈ cols) then Some (Pandas.cell_text r c) else None.
Proof.
  unfold Pandas.write_row. induction cols as [|c' cols IH]; simpl.
  - by rewrite lookup_empty.
  - destruct (decide (c' = c)) as [->|Hne].
    + rewrite lookup_insert_eq. rewrite decide_True; [done | by left].
    + rewrite lookup_insert_ne by done. rewrite IH.
      destruct (decide (c ∈ cols)).
      * rewrite decide_True; [done | by right].
      * rewrite decide_False; [done |]. by intros [?|?]%elem_of_cons.
Qed.

Lemma read_row_lookup line c :
  Pandas.read_row line !! c
  = match line !! c with
    | Some text => if Pandas.is_na text then None else Some text
    | None => None
    end.
Proof.
  unfold Pandas.read_row. rewrite map_lookup_filter.
  destruct (line !! c) as [text|]; simpl; [| done].
  case_guard as Hna; simpl in Hna.
  - by rewrite Hna.
  - by destruct (Pandas.is_na text).
Qed.

(** ** web2.py: the Persistence Merger *)

Lemma new_frame_keyed properties scraped_date :
  properties ≠ [] → Forall Web2.keyed properties →
  Forall (λ c, c ∈ columns (Web2.new_frame properties scraped_date)) Web2.KEY.
Proof.
  intros Hne Hkeyed. destruct properties as [|p properties]; [done |].
  apply Forall_cons in Hkeyed as [Hp _].
  unfold Web2.keyed in Hp. rewrite Forall_forall in Hp.
  apply Forall_forall. intros c Hc.
  apply columns_set_column, elem_of_columns_DataFrame_of.
  exists p. split; [by left | by apply Hp].
Qed.

(** A table of plain cells is loaded as the texts of its cells, the NA
    markers as missing values. *)
Lemma read_csv_plain header lines :
  Pandas.plain_table header lines →
  Pandas.read_csv (Csv header lines)
  = Some (Pandas.Texts (mkDataFrame header (Pandas.read_row <$> lines))).
Proof. intros Hplain. simpl. by rewrite bool_decide_eq_true_2. Qed.

Lemma key_columns_concat (known new : list string) :
  Forall (λ c, c ∈ new) Web2.KEY →
  Forall (λ c, c ∈ known ++ filter (λ c, c ∉ known) new) Web2.KEY.
Proof.
  intros Hkey. eapply Forall_impl; [exact Hkey |]. intros c Hc; simpl in *.
  apply elem_of_app. destruct (decide (c ∈ known)); [by left |].
  right. by apply list_elem_of_filter.
Qed.

Lemma merge_loaded header lines new_df :
  Pandas.plain_table header lines →
  Forall (λ c, c ∈ columns new_df) Web2.KEY →
  Web2.merge (Csv header lines) new_df
  = Some (Pandas.to_csv
            (mkDataFrame
               (header ++ filter (λ c, c ∉ header) (columns new_df))
               (Pandas.keep_first Web2.KEY []
                  ((Pandas.read_row <$> lines) ++ rows new_df)))).
Proof.
  intros Hplain Hkey. unfold Web2.merge. rewrite read_csv_plain by done.
  cbn [mbind option_bind]. rewrite drop_duplicates_Some; [done |].
  by apply key_columns_concat.
Qed.

(** Whenever the table loads and the batch has the key columns, the inner
    [try] writes a table. *)
Lemma merge_is_Some content new_df :
  is_Some (Pandas.read_csv content) →
  Forall (λ c, c ∈ columns new_df) Web2.KEY →
  is_Some (Web2.merge content new_df).
Proof.
  intros [loaded Hload] Hkey. unfold Web2.merge. rewrite Hload.
  cbn [mbind option_bind]. destruct loaded as [existing_df|labels].
  - rewrite drop_duplicates_Some; [by eexists |]. by apply key_columns_concat.
  - rewrite bool_decide_eq_true_2; [by eexists |]. by apply key_columns_concat.
Qed.

(** The inner [try] raises exactly when the load does, for such a batch. *)
Lemma merge_None content new_df :
  Pandas.read_csv content = None → Web2.merge content new_df = None.
Proof. intros Hload. unfold Web2.merge. by rewrite Hload. Qed.

Lemma filter_key_absent {A K : Type} `{EqDecision K} (f : A → K) (l : list A) (k : K) :
  k ∉ f <$> l → filter (λ r, f r = k) l = [].
Proof.
  induction l as [|y l IH]; csimpl; intros Hk; [done |].
  rewrite filter_cons_False.
  - apply IH. intros ?. apply Hk. by right.
  - intros Heq. apply Hk. rewrite <- Heq. by left.
Qed.

Lemma filter_key_unique {A K : Type} `{EqDecision K} (f : A → K) (l : list A) (x : A) :
  NoDup (f <$> l) → x ∈ l → filter (λ r, f r = f x) l = [x].
Proof.
  induction l as [|y l IH]; csimpl; intros Hnd Hx; [by apply elem_of_nil in Hx |].
  apply NoDup_cons in Hnd as [Hy Hnd].
  apply elem_of_cons in Hx as [->|Hx].
  - rewrite filter_cons_True by done. f_equal. by apply filter_key_absent.
  - rewrite filter_cons_False.
    + by apply IH.
    + intros Heq. apply Hy. rewrite Heq. by apply list_elem_of_fmap_2.
Qed.

Lemma save_to_csv_loaded properties output_path scraped_date stamp fs header lines :
  properties ≠ [] → Forall Web2.keyed properties →
  fs !! output_path = Some (Csv header lines) →
  Pandas.plain_table header lines →
  Web2.save_to_csv properties output_path scraped_date stamp fs
  = (true,
     <[output_path :=
         Pandas.to_csv
           (mkDataFrame
              (header ++ filter (λ c, c ∉ header)
                           (columns (Web2.new_frame properties scraped_date)))
              (Pandas.keep_first Web2.KEY []
                 ((Pandas.read_row <$> lines)
                  ++ rows (Web2.new_frame properties scraped_date))))]> fs).
Proof.
  intros Hne Hkeyed Hfs Hplain. unfold Web2.save_to_csv.
  rewrite bool_decide_eq_false_2 by done. rewrite Hfs.
  by rewrite merge_loaded by (done || by apply new_frame_keyed).
Qed.

(** C1. The merge tie-break fails on a key that holds the sentinel.  The
    table holds the listing ("3 BHK Flat", "N/A") at 45,000 and the batch the
    same listing at 50,000.  The Location cell of the old row is loaded as a
    missing value, which [drop_duplicates] does not equate with the text
    "N/A" of the new row: the new row is not dropped, and the table written
    holds both rows, the old one with an empty Location. *)
Theorem save_to_csv_tie_break_sentinel :
  let after :=
    (Web2.save_to_csv Fixtures.rescrape_unknown Web2.OUTPUT_PATH
       "2024-02-02 09:00:00" "20240202_090000" Fixtures.unknown_location).2 in
  (λ line, (Web2.key_text line, Pandas.cell_text line "Price"))
    <$> Web2.table_at Web2.OUTPUT_PATH Fixtures.unknown_location
  = [ (["3 BHK Flat"; "N/A"], "45,000") ]
  ∧ (λ record, (Web2.key_text record, Pandas.cell_text record "Price"))
      <$> Fixtures.rescrape_unknown
    = [ (["3 BHK Flat"; "N/A"], "50,000") ]
  ∧ (λ line, (Web2.key_text line, Pandas.cell_text line "Price"))
      <$> Web2.table_at Web2.OUTPUT_PATH after
    = [ (["3 BHK Flat"; ""], "45,000"); (["3 BHK Flat"; "N/A"], "50,000") ].
Proof. repeat split; decide_by_evaluation. Qed.



(** C2. Post-merge key uniqueness fails when the table cannot be loaded: the
    [except] branch writes the batch as it is, without the
    [drop_duplicates] of the branch for an absent file.  A batch in which one
    card was matched twice, saved over an unreadable table, leaves a table
    with two rows of the same natural key; the same batch saved where no
    table exists leaves one row. *)
Theorem save_to_csv_unreadable_keeps_duplicates :
  Web2.key_text
    <$> Web2.table_at Web2.OUTPUT_PATH
          (Web2.save_to_csv Fixtures.matched_twice Web2.OUTPUT_PATH
             "2024-02-02 09:00:00" "20240202_090000" Fixtures.corrupt).2
  = [ ["3 BHK Flat"; "Dwarka"]; ["3 BHK Flat"; "Dwarka"] ]
  ∧ Web2.key_text
      <$> Web2.table_at Web2.OUTPUT_PATH
            (Web2.save_to_csv Fixtures.matched_twice Web2.OUTPUT_PATH
               "2024-02-02 09:00:00" "20240202_090000" ∅).2
    = [ ["3 BHK Flat"; "Dwarka"] ].
Proof. split; decide_by_evaluation. Qed.

(** C3. Merge idempotence fails on a batch that holds the sentinel in a key
    field.  The first call appends the row ("2 BHK Flat", "N/A"); the second
    call loads that cell as a missing value, which differs from the text
    "N/A" of the same row in the batch, so the row is appended again: two
    lines after one call, three after two. *)
Theorem save_to_csv_twice_differs :
  let once :=
    (Web2.save_to_csv Fixtures.no_location Web2.OUTPUT_PATH
       "2024-02-02 09:00:00" "20240202_090000" Fixtures.one_listing).2 in
  let twice :=
    (Web2.save_to_csv Fixtures.no_location Web2.OUTPUT_PATH
       "2024-02-02 09:05:00" "20240202_090500" once).2 in
  Web2.key_text <$> Web2.table_at Web2.OUTPUT_PATH once
  = [ ["3 BHK Flat"; "Dwarka"]; ["2 BHK Flat"; "N/A"] ]
  ∧ Web2.key_text <$> Web2.table_at Web2.OUTPUT_PATH twice
    = [ ["3 BHK Flat"; "Dwarka"]; ["2 BHK Flat"; ""]; ["2 BHK Flat"; "N/A"] ].
Proof. split; decide_by_evaluation. Qed.

(** C8. The sentinel of an old row does not survive a merge.  A table whose
    line has "N/A" in the Location column is loaded with that cell missing
    and written back with the empty string in it, although the row of the new
    batch next to it is written with its own text. *)
Theorem save_to_csv_rewrites_sentinel :
  let after :=
    (Web2.save_to_csv Fixtures.located Web2.OUTPUT_PATH
       "2024-02-02 09:00:00" "20240202_090000" Fixtures.unknown_location).2 in
  (λ line, Pandas.cell_text line "Location")
    <$> Web2.table_at Web2.OUTPUT_PATH Fixtures.unknown_location = ["N/A"]
  ∧ (λ line, Pandas.cell_text line "Location")
      <$> Web2.table_at Web2.OUTPUT_PATH after = [""; "Rohini"]
  ∧ (λ line, Pandas.cell_text line "Property Title")
      <$> Web2.table_at Web2.OUTPUT_PATH after = ["3 BHK Flat"; "2 BHK Flat"].
Proof. repeat split; decide_by_evaluation. Qed.

Lemma append_empty_r (s : string) : s +:+ "" = s.
Proof.
  induction s as [|c s IH]; [done |].
  change (String c (s +:+ "") = String c s). by rewrite IH.
Qed.

(** The backup name of the configured table. *)
Lemma backup_path_OUTPUT_PATH stamp :
  Web2.backup_path Web2.OUTPUT_PATH stamp = "data/data_backup_" +:+ stamp +:+ ".csv".
Proof.
  unfold Web2.backup_path, PyStr.replace, Web2.OUTPUT_PATH. simpl.
  by rewrite append_empty_r.
Qed.

Lemma backup_path_fresh stamp :
  Web2.backup_path Web2.OUTPUT_PATH stamp ≠ Web2.OUTPUT_PATH.
Proof. rewrite backup_path_OUTPUT_PATH. unfold Web2.OUTPUT_PATH. discriminate. Qed.



(** ** The extractors *)

Lemma set_if_lookup_ne field value (d : Row) f :
  f ≠ field → PyDict.set_if field value d !! f = d !! f.
Proof. intros Hne. destruct value; simpl; [by rewrite lookup_insert_ne | done]. Qed.

(** A field for which nothing was found keeps the value it had. *)
Lemma assign_lookup_unset (d : Row) found f :
  (∀ v, (f, Some v) ∉ found) → PyDict.assign d found !! f = d !! f.
Proof.
  unfold PyDict.assign. revert d.
  induction found as [|[field value] found IH]; intros d Hf; simpl; [done |].
  rewrite IH by (intros v Hv; apply (Hf v); by right).
  destruct value as [v|]; simpl; [| done].
  apply lookup_insert_ne. intros ->. apply (Hf v). by left.
Qed.

(** A field assigned once holds the value found for it, if any. *)
Lemma assign_lookup (d : Row) found f value :
  NoDup found.*1 → (f, value) ∈ found →
  PyDict.assign d found !! f = from_option Some (d !! f) value.
Proof.
  unfold PyDict.assign. revert d.
  induction found as [|[field v] found IH]; intros d Hnd Hf; csimpl in *.
  { by apply elem_of_nil in Hf. }
  apply NoDup_cons in Hnd as [Hfield Hnd].
  apply elem_of_cons in Hf as [[= -> ->]|Hf].
  - fold (PyDict.assign (PyDict.set_if field v d) found).
    rewrite assign_lookup_unset.
    + destruct v; simpl; [by rewrite lookup_insert_eq | done].
    + intros w Hw. apply Hfield. apply list_elem_of_fmap. by exists (field, Some w).
  - rewrite IH by done. f_equal. apply set_if_lookup_ne. intros ->.
    apply Hfield. apply list_elem_of_fmap. by exists (field, value).
Qed.

Lemma web2_blank_lookup f : f ∈ Web2.FIELDS → Web2.blank !! f = Some "N/A".
Proof.
  unfold Web2.FIELDS. intros Hf.
  repeat (apply elem_of_cons in Hf as [->|Hf]; [by vm_compute |]).
  by apply elem_of_nil in Hf.
Qed.

Lemma fastscrap3_blank_lookup property_url scraped_date f :
  f ∈ FastScrap3.SENTINEL_FIELDS →
  FastScrap3.blank property_url scraped_date !! f = Some "N/A".
Proof.
  unfold FastScrap3.SENTINEL_FIELDS, FastScrap3.blank. intros Hf.
  repeat (apply elem_of_cons in Hf as [->|Hf];
          [rewrite !lookup_insert_ne by done; by vm_compute |]).
  by apply elem_of_nil in Hf.
Qed.

Lemma web2_extracted_NoDup listing : NoDup (Web2.extracted listing).*1.
Proof. unfold Web2.extracted. csimpl. decide_by_evaluation. Qed.

Lemma fastscrap3_extracted_NoDup re_search re_findall soup :
  NoDup (FastScrap3.extracted re_search re_findall soup).*1.
Proof.
  unfold FastScrap3.extracted. csimpl. decide_by_evaluation.
Qed.

Lemma extract_property_data_Some listing d :
  Web2.extract_property_data listing = Some d →
  d = PyDict.assign Web2.blank (Web2.extracted listing).
Proof.
  unfold Web2.extract_property_data.
  destruct (_ || _); [discriminate | congruence].
Qed.

Lemma extract_property_data_title listing :
  PyDict.assign Web2.blank (Web2.extracted listing) !! "Property Title"
  = Some (default "N/A" (Web2.title listing)).
Proof.
  rewrite (assign_lookup _ _ "Property Title" (Web2.title listing)).
  - by destruct (Web2.title listing).
  - apply web2_extracted_NoDup.
  - apply list_elem_of_here.
Qed.

(** C5, as the code has it.  Neither extractor raises, and a field for which
    nothing is found keeps the sentinel "N/A".  In web2.py the extractor
    returns no record exactly when the title is "N/A" or shorter than three
    characters.  In fastscrap3.py the extractor returns no record exactly
    when the page could not be fetched; for every fetched page it returns a
    record, whose title is the sentinel when the page has no [h1]. *)
Theorem mandatory_field_rule :
  (∀ listing : Web2.Listing,
     let title := default "N/A" (Web2.title listing) in
     (Web2.extract_property_data listing = None
      ↔ title = "N/A" ∨ (String.length title < 3)%nat)
     ∧ ∀ d, Web2.extract_property_data listing = Some d →
         d !! "Property Title" = Some title
         ∧ ∀ f, f ∈ Web2.FIELDS →
             (∀ v, (f, Some v) ∉ Web2.extracted listing) → d !! f = Some "N/A")
  ∧ (∀ re_search re_findall detail clock url,
       (FastScrap3.extract_property_details re_search re_findall detail clock url = None
        ↔ detail url = None)
       ∧ ∀ soup, detail url = Some soup →
           ∃ d,
             FastScrap3.extract_property_details re_search re_findall detail clock url
             = Some d
             ∧ d !! "Property_Title" = Some (default "N/A" (FastScrap3.h1 soup))
             ∧ ∀ f, f ∈ FastScrap3.SENTINEL_FIELDS →
                 (∀ v, (f, Some v) ∉ FastScrap3.extracted re_search re_findall soup) →
                 d !! f = Some "N/A").
Proof.
  split.
  - intros listing title. split.
    + unfold Web2.extract_property_data.
      rewrite extract_property_data_title. simpl. fold title.
      destruct (bool_decide (title = "N/A")) eqn:Hna; simpl.
      * apply bool_decide_eq_true in Hna. split; [by left | done].
      * apply bool_decide_eq_false in Hna.
        destruct (String.length title <? 3)%nat eqn:Hlen.
        -- apply Nat.ltb_lt in Hlen. split; [by right | done].
        -- apply Nat.ltb_ge in Hlen. split; [done |]. intros [?|?]; [done | lia].
    + intros d ->%extract_property_data_Some. split.
      * apply extract_property_data_title.
      * intros f Hf Hunset. rewrite assign_lookup_unset by done.
        by apply web2_blank_lookup.
  - intros re_search re_findall detail clock url. split.
    + unfold FastScrap3.extract_property_details. by destruct (detail url).
    + intros soup Hsoup. unfold FastScrap3.extract_property_details.
      rewrite Hsoup. eexists. split; [done |]. unfold FastScrap3.fill. split.
      * rewrite (assign_lookup _ _ "Property_Title" (FastScrap3.h1 soup)).
        -- destruct (FastScrap3.h1 soup); [done |]. cbn [from_option default].
           apply fastscrap3_blank_lookup. apply list_elem_of_here.
        -- apply fastscrap3_extracted_NoDup.
        -- apply list_elem_of_here.
      * intros f Hf Hunset. rewrite assign_lookup_unset by done.
        by apply fastscrap3_blank_lookup.
Qed.

Lemma mandatory_field_rule_witness :
  (Web2.extract_property_data Fixtures.short_title = None
   ↔ "4B" = "N/A" ∨ (String.length "4B" < 3)%nat)
  ∧ ∃ d,
      FastScrap3.extract_property_details Fixtures.no_match Fixtures.no_findall
        Fixtures.empty_pages Fixtures.noon "https://www.99acres.com/2-bhk-spid-A1"
      = Some d
      ∧ d !! "Property_Title" = Some "N/A"
      ∧ ∀ f, f ∈ FastScrap3.SENTINEL_FIELDS →
          (∀ v, (f, Some v)
                ∉ FastScrap3.extracted Fixtures.no_match Fixtures.no_findall
                    (FastScrap3.mkSoup None "")) →
          d !! f = Some "N/A".
Proof.
  destruct mandatory_field_rule as [Hweb2 Hfast]. split.
  - destruct (Hweb2 Fixtures.short_title) as [Hnone _]. exact Hnone.
  - destruct (Hfast Fixtures.no_match Fixtures.no_findall Fixtures.empty_pages
                Fixtures.noon "https://www.99acres.com/2-bhk-spid-A1")
      as [_ Hsome].
    apply (Hsome (FastScrap3.mkSoup None "")). reflexivity.
Defined.

(** C5 as stated fails in both directions.  In fastscrap3.py a page without
    [h1] and without any text still yields a record, every field of which is
    the sentinel, the title included; in web2.py a card whose heading is "4B"
    has its title set and yields no record. *)
Lemma extract_details_keeps_untitled_page :
  FastScrap3.extract_property_details Fixtures.no_match Fixtures.no_findall
    Fixtures.empty_pages Fixtures.noon "https://www.99acres.com/2-bhk-spid-A1"
  = Some (FastScrap3.blank "https://www.99acres.com/2-bhk-spid-A1"
            "2024-02-02 12:00:00")
  ∧ FastScrap3.blank "https://www.99acres.com/2-bhk-spid-A1" "2024-02-02 12:00:00"
      !! "Property_Title" = Some "N/A"
  ∧ Web2.title Fixtures.short_title = Some "4B"
  ∧ Web2.extract_property_data Fixtures.short_title = None.
Proof. repeat split; decide_by_evaluation. Qed.

(** ** Listing URL extraction *)

Lemma webscrap2_collect_links acc all_links :
  WebScrap2.collect_links acc all_links = acc ++ omap Links.kept all_links.
Proof.
  revert acc. induction all_links as [|href rest IH]; intros acc; simpl.
  - by rewrite app_nil_r.
  - unfold Links.kept at 1.
    destruct (bool_decide (href = "")); [apply IH |].
    destruct (Links.is_property_link href); [| apply IH].
    destruct (PyStr.contains "/search/" (Links.absolute href)); simpl; [apply IH |].
    rewrite IH. by rewrite <- app_assoc.
Qed.

Lemma fastscrap3_collect_links acc all_links u :
  u ∈ FastScrap3.collect_links acc all_links
  ↔ u ∈ acc ∨ ∃ href, href ∈ all_links ∧ Links.kept href = Some u.
Proof.
  revert acc. induction all_links as [|href rest IH]; intros acc; simpl.
  - split; [by left |]. intros [?|(? & []%elem_of_nil & _)]; done.
  - assert (Hskip : Links.kept href = None →
              (u ∈ FastScrap3.collect_links acc rest
               ↔ u ∈ acc ∨ ∃ h, h ∈ href :: rest ∧ Links.kept h = Some u)).
    { intros Hk. rewrite IH. split; intros [?|(h & Hh & Hu)]; auto.
      - right. exists h. split; [by right | done].
      - apply elem_of_cons in Hh as [->|Hh]; [congruence |]. right. by exists h. }
    unfold Links.kept in Hskip at 1.
    destruct (bool_decide (href = "")) eqn:Hempty; [by apply Hskip |].
    destruct (Links.is_property_link href) eqn:Hlink; [| by apply Hskip].
    destruct (PyStr.contains "/search/" (Links.absolute href)) eqn:Hsearch;
      simpl; [by apply Hskip |].
    assert (Hk : Links.kept href = Some (Links.absolute href)).
    { unfold Links.kept. by rewrite Hempty, Hlink, Hsearch. }
    clear Hskip.
    destruct (bool_decide (Links.absolute href ∉ acc)) eqn:Hseen; rewrite IH.
    + rewrite elem_of_app, list_elem_of_singleton. split.
      * intros [[?| ->]|(h & Hh & Hu)]; [by left | |].
        -- right. exists href. split; [by left | done].
        -- right. exists h. split; [by right | done].
      * intros [?|(h & Hh & Hu)]; [by left; left |].
        apply elem_of_cons in Hh as [->|Hh].
        -- left. right. congruence.
        -- right. by exists h.
    + apply bool_decide_eq_false, dec_stable in Hseen. split.
      * intros [?|(h & Hh & Hu)]; [by left |].
        right. exists h. split; [by right | done].
      * intros [?|(h & Hh & Hu)]; [by left |].
        apply elem_of_cons in Hh as [->|Hh].
        -- left. congruence.
        -- right. by exists h.
Qed.

(** Both variants return the URLs kept from the hyperlinks of the page. *)
Lemma elem_of_extract_urls all_links u :
  (u ∈ FastScrap3.extract_urls all_links
   ↔ ∃ href, href ∈ all_links ∧ Links.kept href = Some u)
  ∧ (u ∈ WebScrap2.extract_urls all_links
     ↔ ∃ href, href ∈ all_links ∧ Links.kept href = Some u).
Proof.
  split.
  - unfold FastScrap3.extract_urls.
    rewrite elem_of_fromkeys, fastscrap3_collect_links.
    split; [intros [[]%elem_of_nil|?]; done | by right].
  - unfold WebScrap2.extract_urls.
    rewrite elem_of_fromkeys, webscrap2_collect_links. simpl.
    rewrite list_elem_of_omap. naive_solver.
Qed.

(** C7. Order-insensitivity of listing URL extraction: for every list of
    hyperlinks and every permutation of it, the property URLs extracted by
    fastscrap3.py, and those extracted by webscrap2.py, are the same set. *)
Theorem extract_urls_order_insensitive (all_links shuffled : list string) :
  shuffled ≡ₚ all_links →
  list_to_set (FastScrap3.extract_urls shuffled)
  =@{gset string} list_to_set (FastScrap3.extract_urls all_links)
  ∧ list_to_set (WebScrap2.extract_urls shuffled)
    =@{gset string} list_to_set (WebScrap2.extract_urls all_links).
Proof.
  intros Hperm. split; apply set_eq; intros u; rewrite !elem_of_list_to_set.
  - rewrite !(proj1 (elem_of_extract_urls _ u)).
    by setoid_rewrite Hperm.
  - rewrite !(proj2 (elem_of_extract_urls _ u)).
    by setoid_rewrite Hperm.
Qed.

Lemma extract_urls_order_insensitive_witness :
  list_to_set
    (FastScrap3.extract_urls
       ["/search/property/rent/delhi"; "/3-bhk-flat-spid-B2";
        "https://www.99acres.com/2-bhk-apartment-spid-A1"; "/3-bhk-flat-spid-B2"])
  =@{gset string}
    list_to_set
      (FastScrap3.extract_urls
         ["/3-bhk-flat-spid-B2"; "https://www.99acres.com/2-bhk-apartment-spid-A1";
          "/search/property/rent/delhi"; "/3-bhk-flat-spid-B2"])
  ∧ list_to_set
      (WebScrap2.extract_urls
         ["/search/property/rent/delhi"; "/3-bhk-flat-spid-B2";
          "https://www.99acres.com/2-bhk-apartment-spid-A1"; "/3-bhk-flat-spid-B2"])
    =@{gset string}
      list_to_set
        (WebScrap2.extract_urls
           ["/3-bhk-flat-spid-B2"; "https://www.99acres.com/2-bhk-apartment-spid-A1";
            "/search/property/rent/delhi"; "/3-bhk-flat-spid-B2"]).
Proof.
  apply extract_urls_order_insensitive.
  decide_by_evaluation.
Defined.

(** ** The Detail Collector *)

Section Collector.

Variable re_search : string → bool → string → option FastScrap3.Match.
Variable re_findall : string → string → list string.
Variable detail : string → option FastScrap3.Soup.
Variable clock : string → string.

Local Abbreviation extract :=
  (FastScrap3.extract_property_details re_search re_findall detail clock).
Local Abbreviation collect :=
  (FastScrap3.collect_details re_search re_findall detail clock).

(** A record carries the URL it was extracted from. *)
Lemma extract_property_details_url url d :
  extract url = Some d → d !! "Property_URL" = Some url.
Proof.
  unfold FastScrap3.extract_property_details.
  destruct (detail url) as [soup|]; [| done]. intros [= <-].
  unfold FastScrap3.fill. rewrite assign_lookup_unset.
  - unfold FastScrap3.blank. rewrite lookup_insert_ne by done.
    by rewrite lookup_insert_eq.
  - intros v Hv. unfold FastScrap3.extracted in Hv.
    repeat (apply elem_of_cons in Hv as [Hv|Hv]; [discriminate Hv |]).
    by apply elem_of_nil in Hv.
Qed.

Lemma collect_details_omap properties completed :
  collect properties completed = properties ++ omap extract completed.
Proof.
  unfold FastScrap3.collect_details. revert properties.
  induction completed as [|url completed IH]; intros properties; simpl.
  - by rewrite app_nil_r.
  - rewrite IH. destruct (extract url) as [d|] eqn:Hd; [| done].
    rewrite bool_decide_eq_true_2; [by rewrite <- app_assoc |].
    intros ->. apply extract_property_details_url in Hd.
    by rewrite lookup_empty in Hd.
Qed.

Lemma filter_url_omap url l :
  NoDup l →
  filter (λ r : Row, r !! "Property_URL" = Some url) (omap extract l)
  = if decide (url ∈ l) then option_list (extract url) else [].
Proof.
  induction l as [|x l IH]; intros Hnd; csimpl; [done |].
  apply NoDup_cons in Hnd as [Hx Hnd]. specialize (IH Hnd).
  destruct (decide (x = url)) as [->|Hne].
  - rewrite decide_True by (by left).
    rewrite decide_False in IH by done.
    destruct (extract url) as [d|] eqn:Hd; csimpl; [| done].
    rewrite filter_cons_True by (by apply extract_property_details_url).
    by rewrite IH.
  - assert (Hrest : filter (λ r : Row, r !! "Property_URL" = Some url)
                      (omap extract l)
                    = if decide (url ∈ x :: l)
                      then option_list (extract url) else []).
    { rewrite IH. destruct (decide (url ∈ l)).
      - rewrite decide_True; [done | by right].
      - rewrite decide_False; [done |]. by intros [?|?]%elem_of_cons. }
    destruct (extract x) as [d|] eqn:Hd; csimpl; [| done].
    rewrite filter_cons_False; [done |].
    apply extract_property_details_url in Hd. congruence.
Qed.

Lemma length_omap_failures (l : list string) :
  length (omap extract l) + length (filter (λ url, extract url = None) l)
  = length l.
Proof.
  induction l as [|x l IH]; csimpl; [done |].
  destruct (extract x) eqn:Hx; csimpl.
  - rewrite filter_cons_False by (by rewrite Hx). simpl. lia.
  - rewrite filter_cons_True by done. simpl. lia.
Qed.

(** C6. Per-URL failure containment.  Whatever the order [completed] in
    which the tasks of the URLs complete, the records collected are, up to
    their order, the records of the URLs whose extraction succeeds: exactly
    one record for each such URL, none for a URL whose extraction returns
    nothing, and as many records as there are URLs less the failing ones. *)
Theorem collect_details_containment (urls completed : list string) :
  NoDup urls → completed ≡ₚ urls →
  let extract :=
    FastScrap3.extract_property_details re_search re_findall detail clock in
  let records :=
    FastScrap3.collect_details re_search re_findall detail clock [] completed in
  records ≡ₚ omap extract urls
  ∧ (∀ url d, url ∈ urls → extract url = Some d →
       filter (λ r : Row, r !! "Property_URL" = Some url) records = [d])
  ∧ (∀ url, extract url = None →
       filter (λ r : Row, r !! "Property_URL" = Some url) records = [])
  ∧ length records + length (filter (λ url, extract url = None) urls)
    = length urls.
Proof.
  intros Hnd Hperm extract records. subst extract records.
  rewrite collect_details_omap. simpl.
  assert (Hnd' : NoDup completed) by (by rewrite Hperm).
  split; [by rewrite Hperm |]. split; [| split].
  - intros url d Hurl Hd. rewrite filter_url_omap by done.
    rewrite decide_True by (by rewrite Hperm). by rewrite Hd.
  - intros url Hd. rewrite filter_url_omap by done.
    rewrite Hd. by destruct (decide _).
  - rewrite <- (length_omap_failures urls). f_equal. by rewrite Hperm.
Qed.

End Collector.

Lemma collect_details_containment_witness :
  let extract :=
    FastScrap3.extract_property_details Fixtures.no_match Fixtures.no_findall
      Fixtures.two_fail Fixtures.noon in
  let records :=
    FastScrap3.collect_details Fixtures.no_match Fixtures.no_findall
      Fixtures.two_fail Fixtures.noon [] (reverse Fixtures.ten_urls) in
  (NoDup Fixtures.ten_urls ∧ reverse Fixtures.ten_urls ≡ₚ Fixtures.ten_urls
   ∧ length Fixtures.ten_urls = 10
   ∧ length (filter (λ url, extract url = None) Fixtures.ten_urls) = 2)
  ∧ (records ≡ₚ omap extract Fixtures.ten_urls
     ∧ (∀ url d, url ∈ Fixtures.ten_urls → extract url = Some d →
          filter (λ r : Row, r !! "Property_URL" = Some url) records = [d])
     ∧ (∀ url, extract url = None →
          filter (λ r : Row, r !! "Property_URL" = Some url) records = [])
     ∧ length records
       + length (filter (λ url, extract url = None) Fixtures.ten_urls)
       = length Fixtures.ten_urls).
Proof.
  assert (Hnd : NoDup Fixtures.ten_urls)
    by decide_by_evaluation.
  assert (Hperm : reverse Fixtures.ten_urls ≡ₚ Fixtures.ten_urls)
    by apply reverse_Permutation.
  split.
  - split; [exact Hnd |]. split; [exact Hperm |]. split; vm_compute; reflexivity.
  - exact (collect_details_containment Fixtures.no_match Fixtures.no_findall
             Fixtures.two_fail Fixtures.noon Fixtures.ten_urls
             (reverse Fixtures.ten_urls) Hnd Hperm).
Defined.

(** ** The optimized scraper's run and its output file *)

(** C9. [scrape_all] walks the listing pages from 36 to [num_pages]
    inclusive: whatever the site and the scheduling, the pages it submits are
    exactly those, each once, and the URLs it discovers are exactly the URLs
    extracted from those pages; when it discovers none it returns [False]
    and changes nothing.  So for every [num_pages] below 36 no page is
    submitted, no URL is found, the call returns [False], and neither
    [self.properties] nor the file system changes. *)
Theorem scrape_all_walks_from_36
    re_search re_findall listing detail clock completed_pages completed_urls
    property_type city (num_pages : Z) properties stamp (fs : FS) :
  (∀ submitted : list Z, completed_pages submitted ≡ₚ submitted) →
  let result :=
    FastScrap3.scrape_all re_search re_findall listing detail clock
      completed_pages completed_urls property_type city num_pages
      properties stamp fs in
  let urls :=
    FastScrap3.walk listing completed_pages property_type city
      (FastScrap3.pages num_pages) in
  (∀ page, page ∈ result.1.1.2 ↔ (36 ≤ page ≤ num_pages)%Z)
  ∧ NoDup result.1.1.2
  ∧ (∀ url,
       url ∈ urls
       ↔ ∃ page, (36 ≤ page ≤ num_pages)%Z
                 ∧ url ∈ FastScrap3.extract_urls_from_page listing property_type
                            city page)
  ∧ (urls = [] → result = (false, FastScrap3.pages num_pages, properties, fs))
  ∧ ((num_pages < 36)%Z →
     FastScrap3.pages num_pages = [] ∧ urls = []
     ∧ result = (false, [], properties, fs)).
Proof.
  intros Hsched result urls.
  assert (Hsubmitted : result.1.1.2 = FastScrap3.pages num_pages).
  { subst result. unfold FastScrap3.scrape_all.
    repeat case_bool_decide; reflexivity. }
  assert (Hpages : ∀ page,
            page ∈ FastScrap3.pages num_pages ↔ (36 ≤ page ≤ num_pages)%Z).
  { intros page. unfold FastScrap3.pages. rewrite elem_of_seqZ. lia. }
  assert (Hnone : urls = [] →
            result = (false, FastScrap3.pages num_pages, properties, fs)).
  { intros Hurls. subst result. unfold FastScrap3.scrape_all. fold urls.
    by rewrite bool_decide_eq_true_2. }
  assert (Hurls : ∀ url,
            url ∈ urls
            ↔ ∃ page, (36 ≤ page ≤ num_pages)%Z
                      ∧ url ∈ FastScrap3.extract_urls_from_page listing
                                 property_type city page).
  { intros url. subst urls. unfold FastScrap3.walk.
    rewrite elem_of_fromkeys, list_elem_of_bind.
    split; intros (page & ? & ?); exists page.
    - split; [| done]. apply Hpages. by rewrite <- (Hsched (FastScrap3.pages _)).
    - split; [done |]. rewrite (Hsched (FastScrap3.pages _)). by apply Hpages. }
  split; [by rewrite Hsubmitted |].
  split; [rewrite Hsubmitted; apply NoDup_seqZ |].
  split; [done |]. split; [done |].
  intros Hlt.
  assert (Hempty : FastScrap3.pages num_pages = []).
  { unfold FastScrap3.pages. apply seqZ_nil. lia. }
  assert (Hwalk : urls = []).
  { apply elem_of_nil_inv. intros url (page & ? & _)%Hurls. lia. }
  split; [done |]. split; [done |]. rewrite <- Hempty. by apply Hnone.
Qed.

Lemma scrape_all_walks_from_36_witness :
  (let result :=
     FastScrap3.scrape_all Fixtures.no_match Fixtures.no_findall
       Fixtures.one_link Fixtures.two_fail Fixtures.noon
       Fixtures.in_order Fixtures.reversed "rent" "delhi"
       37 [] "20240202_120000" ∅ in
   result.1.1.2 = [36; 37]%Z
   ∧ result.1.1.1 = true
   ∧ ∀ page, page ∈ result.1.1.2 ↔ (36 ≤ page ≤ 37)%Z)
  ∧ FastScrap3.pages FastScrap3.DEFAULT_NUM_PAGES = []
  ∧ FastScrap3.walk Fixtures.one_link Fixtures.in_order "rent" "delhi"
      (FastScrap3.pages FastScrap3.DEFAULT_NUM_PAGES) = []
  ∧ FastScrap3.scrape_all Fixtures.no_match Fixtures.no_findall
      Fixtures.one_link Fixtures.two_fail Fixtures.noon
      Fixtures.in_order Fixtures.reversed "rent" "delhi"
      FastScrap3.DEFAULT_NUM_PAGES [] "20240202_120000" Fixtures.one_listing
    = (false, [], [], Fixtures.one_listing).
Proof.
  split.
  - split; [decide_by_evaluation |]. split; [decide_by_evaluation |].
    apply (scrape_all_walks_from_36 Fixtures.no_match Fixtures.no_findall
             Fixtures.one_link Fixtures.two_fail Fixtures.noon
             Fixtures.in_order Fixtures.reversed "rent" "delhi"
             37 [] "20240202_120000" ∅).
    intros submitted. reflexivity.
  - apply (scrape_all_walks_from_36 Fixtures.no_match Fixtures.no_findall
             Fixtures.one_link Fixtures.two_fail Fixtures.noon
             Fixtures.in_order Fixtures.reversed "rent" "delhi"
             FastScrap3.DEFAULT_NUM_PAGES [] "20240202_120000"
             Fixtures.one_listing).
    + intros submitted. reflexivity.
    + reflexivity.
Defined.

(** The same run from page 36 on finds the property and writes its file. *)
Lemma scrape_all_from_36 :
  (FastScrap3.scrape_all Fixtures.no_match Fixtures.no_findall
     Fixtures.one_link Fixtures.two_fail Fixtures.noon
     Fixtures.in_order Fixtures.reversed "rent" "delhi"
     36 [] "20240202_120000" ∅).1.1.1 = true.
Proof. vm_compute. reflexivity. Qed.

(** C10, as the code has it.  The optimized scraper's [save_to_csv] writes
    one path, the name built from the clock reading, which has the
    granularity of a second; what it writes there is computed from the
    records alone, whatever the file system holds (it reads and merges
    nothing).  Every other path keeps what it held, and no path is removed. *)
Theorem save_to_csv_optimized_frame properties stamp (fs : FS) :
  let fs' := FastScrap3.save_to_csv properties stamp fs in
  FastScrap3.filename stamp = "dataset_optimized_" +:+ stamp +:+ ".csv"
  ∧ fs' !! FastScrap3.filename stamp
    = Some (Pandas.to_csv (FastScrap3.output_frame properties))
  ∧ (∀ other : FS,
       FastScrap3.save_to_csv properties stamp other !! FastScrap3.filename stamp
       = fs' !! FastScrap3.filename stamp)
  ∧ (∀ path, path ≠ FastScrap3.filename stamp → fs' !! path = fs !! path)
  ∧ (∀ path, is_Some (fs !! path) → is_Some (fs' !! path)).
Proof.
  intros fs'. subst fs'. unfold FastScrap3.save_to_csv.
  split; [done |]. split; [by rewrite lookup_insert_eq |]. split; [| split].
  - intros other. by rewrite !lookup_insert_eq.
  - intros path Hpath. by rewrite lookup_insert_ne.
  - intros path Hpath. destruct (decide (path = FastScrap3.filename stamp)) as [->|].
    + rewrite lookup_insert_eq. by eexists.
    + by rewrite lookup_insert_ne.
Qed.

(** C10 as stated fails: the name is not fresh when a file of that name
    exists, as after a save in the same second, and that file is then
    overwritten.  Here the earlier file held one listing; after the call it
    holds the table of the new records, and no path holds the earlier
    table. *)
Lemma save_to_csv_optimized_overwrites :
  let before := Scenarios.same_second in
  let after :=
    FastScrap3.save_to_csv Scenarios.later_records "20240202_120000" before in
  before !! FastScrap3.filename "20240202_120000" = Some Scenarios.earlier_table
  ∧ after !! FastScrap3.filename "20240202_120000"
    = Some (Pandas.to_csv (FastScrap3.output_frame Scenarios.later_records))
  ∧ Pandas.to_csv (FastScrap3.output_frame Scenarios.later_records)
    ≠ Scenarios.earlier_table
  ∧ ∀ path, after !! path ≠ Some Scenarios.earlier_table.
Proof.
  intros before after.
  assert (Hdiffer : Pandas.to_csv (FastScrap3.output_frame Scenarios.later_records)
                    ≠ Scenarios.earlier_table) by decide_by_evaluation.
  split; [decide_by_evaluation |]. split; [decide_by_evaluation |].
  split; [exact Hdiffer |].
  intros path. subst after before. unfold FastScrap3.save_to_csv.
  destruct (decide (path = FastScrap3.filename "20240202_120000")) as [->|Hpath].
  - rewrite lookup_insert_eq. congruence.
  - rewrite lookup_insert_ne by done. unfold Scenarios.same_second.
    rewrite lookup_singleton_ne by done. done.
Qed.

(** ** Where the merge is idempotent *)

(** Writing a row and loading it again: every cell whose text is in
    [Pandas.na_values], the empty text of a missing value included, comes
    back missing. *)
Lemma reload_lookup cols (r : Row) c :
  Pandas.read_row (Pandas.write_row cols r) !! c
  = if decide (c ∈ cols)
    then if Pandas.is_na (Pandas.cell_text r c) then None
         else Some (Pandas.cell_text r c)
    else None.
Proof.
  rewrite read_row_lookup, write_row_lookup. by destruct (decide (c ∈ cols)).
Qed.

Lemma reload_reload cols (r : Row) :
  Pandas.read_row (Pandas.write_row cols (Pandas.read_row (Pandas.write_row cols r)))
  = Pandas.read_row (Pandas.write_row cols r).
Proof.
  apply map_eq. intros c. rewrite (reload_lookup cols (Pandas.read_row _)).
  rewrite (reload_lookup cols r). destruct (decide (c ∈ cols)); [| done].
  unfold Pandas.cell_text at 1 2. rewrite (reload_lookup cols r).
  rewrite decide_True by done.
  destruct (Pandas.is_na (Pandas.cell_text r c)) eqn:Hna; simpl; [done |].
  by rewrite Hna.
Qed.

(** A cell that is missing or holds a text outside [Pandas.na_values] is
    loaded back as it was. *)
Lemma reload_key subset cols (r : Row) :
  Forall (λ c, c ∈ cols) subset →
  Forall (λ c, ∀ v, r !! c = Some v → Pandas.is_na v = false) subset →
  Pandas.key_of subset (Pandas.read_row (Pandas.write_row cols r))
  = Pandas.key_of subset r.
Proof.
  unfold Pandas.key_of. induction subset as [|c subset IH]; intros Hcols Hna; [done |].
  apply Forall_cons in Hcols as [Hc Hcols]. apply Forall_cons in Hna as [Hv Hna].
  csimpl. rewrite IH by done. f_equal.
  rewrite reload_lookup, decide_True by done. unfold Pandas.cell_text.
  destruct (r !! c) as [v|]; simpl; [by rewrite (Hv v) | done].
Qed.

(** A table written from a frame of texts is loaded again, with the columns
    of the frame. *)
Lemma read_csv_to_csv df :
  ∃ loaded, Pandas.read_csv (Pandas.to_csv df) = Some loaded
            ∧ Pandas.labels loaded = columns df.
Proof.
  unfold Pandas.to_csv; simpl. case_bool_decide; eexists; (split; [done | done]).
Qed.

(** The table written from rows of plain cells is a table of plain cells. *)
Lemma plain_table_written cols (l : list Row) :
  Forall Pandas.plain_row l →
  Pandas.plain_table cols (Pandas.write_row cols <$> l).
Proof.
  intros Hl. unfold Pandas.plain_table. apply Forall_fmap.
  eapply Forall_impl; [exact Hl |]. intros r Hr c cell; simpl.
  rewrite write_row_lookup. destruct (decide (c ∈ cols)); [| done].
  intros [= <-]. split; [done |]. unfold Pandas.cell_text.
  destruct (r !! c) as [v|] eqn:Hv; simpl; [by apply (Hr c v) | done].
Qed.

Lemma plain_row_read_row (header : list string) (line : Row) :
  map_Forall (λ c cell, c ∈ header ∧ Pandas.plain cell = true) line →
  Pandas.plain_row (Pandas.read_row line).
Proof.
  intros Hline c cell. unfold Pandas.read_row.
  intros [Hc _]%map_lookup_filter_Some. by destruct (Hline c cell Hc).
Qed.

Lemma plain_rows_loaded (header : list string) lines :
  Pandas.plain_table header lines → Forall Pandas.plain_row (Pandas.read_row <$> lines).
Proof.
  intros Hplain. apply Forall_fmap. eapply Forall_impl; [exact Hplain |].
  intros line Hline. by apply (plain_row_read_row header).
Qed.

Lemma plain_rows_new_frame properties scraped_date :
  Forall Pandas.plain_row properties → Pandas.plain scraped_date = true →
  Forall Pandas.plain_row (rows (Web2.new_frame properties scraped_date)).
Proof.
  intros Hbatch Hdate. unfold Web2.new_frame, Pandas.set_column, Pandas.DataFrame_of.
  cbn [rows]. apply Forall_fmap. eapply Forall_impl; [exact Hbatch |].
  intros p Hp c cell; simpl. destruct (decide (c = "Scraped_Date")) as [->|Hc].
  - rewrite lookup_insert_eq. by intros [= <-].
  - rewrite lookup_insert_ne by done. apply Hp.
Qed.

Lemma plain_rows_keep_first subset seen (l : list Row) :
  Forall Pandas.plain_row l → Forall Pandas.plain_row (Pandas.keep_first subset seen l).
Proof.
  rewrite !Forall_forall. intros Hl r [Hr _]%keep_first_elem_of. by apply Hl.
Qed.

Lemma filter_all_known (cols known : list string) :
  (∀ c, c ∈ cols → c ∈ known) → filter (λ c, c ∉ known) cols = [].
Proof.
  induction cols as [|c cols IH]; intros Hknown; [done |].
  rewrite filter_cons_False by (intros Hc; apply Hc, Hknown; by left).
  apply IH. intros c' Hc'. apply Hknown. by right.
Qed.

Section Twice.

Variables (properties : list Row) (output_path : string).
Variables (date1 stamp1 date2 stamp2 : string).
Variables (fs : FS) (header : list string) (lines : list Row).

Hypothesis nonempty : properties ≠ [].
Hypothesis keyed : Forall Web2.keyed properties.
Hypothesis known_keys :
  Forall (λ p : Row, Forall (λ c, ∀ v, p !! c = Some v → Pandas.is_na v = false)
                       Web2.KEY) properties.
Hypothesis loaded : fs !! output_path = Some (Csv header lines).
Hypothesis plain_loaded : Pandas.plain_table header lines.
Hypothesis plain_batch : Forall Pandas.plain_row properties.
Hypothesis plain_date : Pandas.plain date1 = true.

Local Abbreviation new1 := (Web2.new_frame properties date1).
Local Abbreviation new2 := (Web2.new_frame properties date2).
Local Abbreviation cols1 :=
  (header ++ filter (λ c, c ∉ header) (columns new1)).
Local Abbreviation rows1 :=
  (Pandas.keep_first Web2.KEY [] ((Pandas.read_row <$> lines) ++ rows new1)).

Lemma key_columns_written : Forall (λ c, c ∈ cols1) Web2.KEY.
Proof.
  eapply Forall_impl; [by apply (new_frame_keyed properties date1) |].
  intros c Hc; simpl in *. apply elem_of_app.
  destruct (decide (c ∈ header)); [by left |]. right. by apply list_elem_of_filter.
Qed.

Lemma new_frame_key date (p : Row) :
  Web2.natural_key (<["Scraped_Date" := date]> p) = Web2.natural_key p.
Proof.
  unfold Web2.natural_key, Pandas.key_of, Web2.KEY. csimpl.
  by rewrite !lookup_insert_ne by done.
Qed.

Lemma rows1_known r :
  r ∈ rows1 →
  Forall (λ c, ∀ v, r !! c = Some v → Pandas.is_na v = false) Web2.KEY.
Proof.
  intros [Hr _]%keep_first_elem_of.
  apply elem_of_app in Hr as [Hr|Hr].
  - apply list_elem_of_fmap in Hr as (line & -> & _).
    apply Forall_forall. intros c _ v. rewrite read_row_lookup.
    destruct (line !! c) as [text|]; [| done].
    destruct (Pandas.is_na text) eqn:Hna; [done |]. by intros [= <-].
  - unfold Web2.new_frame, Pandas.set_column, Pandas.DataFrame_of in Hr.
    simpl in Hr. apply list_elem_of_fmap in Hr as (p & -> & Hp).
    rewrite Forall_forall in known_keys. specialize (known_keys p Hp).
    rewrite Forall_forall in known_keys. apply Forall_forall. intros c Hc v.
    rewrite lookup_insert_ne; [by apply known_keys |].
    intros <-. revert Hc. decide_by_evaluation.
Qed.

Lemma rows2_reloaded :
  Pandas.keep_first Web2.KEY []
    ((Pandas.read_row <$> (Pandas.write_row cols1 <$> rows1)) ++ rows new2)
  = Pandas.read_row <$> (Pandas.write_row cols1 <$> rows1).
Proof.
  assert (Hkeys : Pandas.key_of Web2.KEY
                    <$> (Pandas.read_row <$> (Pandas.write_row cols1 <$> rows1))
                  = Pandas.key_of Web2.KEY <$> rows1).
  { rewrite <- !list_fmap_compose. apply list_fmap_ext.
    intros i r Hr%list_elem_of_lookup_2. unfold compose.
    apply reload_key; [apply key_columns_written | by apply rows1_known]. }
  rewrite keep_first_app, Hkeys.
  rewrite (keep_first_id Web2.KEY []
             (Pandas.read_row <$> (Pandas.write_row cols1 <$> rows1))).
  rewrite (keep_first_seen Web2.KEY _ (rows new2)).
  - apply app_nil_r.
  - intros r Hr. apply elem_of_app. left.
    unfold Web2.new_frame, Pandas.set_column, Pandas.DataFrame_of in Hr.
    simpl in Hr. apply list_elem_of_fmap in Hr as (p & -> & Hp).
    apply keep_first_keys. split; [| apply not_elem_of_nil].
    rewrite fmap_app, elem_of_app. right.
    apply list_elem_of_fmap. exists (<["Scraped_Date" := date1]> p). split.
    + fold Web2.natural_key. by rewrite !new_frame_key.
    + unfold Web2.new_frame, Pandas.set_column, Pandas.DataFrame_of; simpl.
      apply list_elem_of_fmap. by exists p.
  - rewrite Hkeys. apply keep_first_NoDup.
  - intros r _. apply not_elem_of_nil.
Qed.

Lemma rows1_plain : Forall Pandas.plain_row rows1.
Proof.
  apply plain_rows_keep_first, Forall_app. split.
  - by apply (plain_rows_loaded header).
  - by apply plain_rows_new_frame.
Qed.

Lemma written1_plain :
  Pandas.plain_table cols1 (Pandas.write_row cols1 <$> rows1).
Proof. apply plain_table_written, rows1_plain. Qed.


End Twice.


(** ** The schema of the optimized scraper's table *)

Lemma assign_is_Some (d : Row) found c :
  is_Some (d !! c) → is_Some (PyDict.assign d found !! c).
Proof.
  unfold PyDict.assign. revert d.
  induction found as [|[field value] found IH]; intros d Hd; simpl; [done |].
  apply IH. destruct value as [v|]; simpl; [| done].
  destruct (decide (field = c)) as [->|Hne].
  - rewrite lookup_insert_eq. by eexists.
  - by rewrite lookup_insert_ne.
Qed.

(** A record of [extract_property_details] has a value in every column. *)
Lemma extract_property_details_complete re_search re_findall detail clock url d c :
  FastScrap3.extract_property_details re_search re_findall detail clock url = Some d →
  c ∈ FastScrap3.COLUMNS → is_Some (d !! c).
Proof.
  unfold FastScrap3.extract_property_details.
  destruct (detail url) as [soup|]; [| done]. intros [= <-] Hc.
  apply assign_is_Some. unfold FastScrap3.COLUMNS in Hc.
  unfold FastScrap3.blank.
  repeat (apply elem_of_cons in Hc as [->|Hc];
          [rewrite ?lookup_insert_eq, ?lookup_insert_ne by done;
           first [by eexists | by vm_compute] |]).
  by apply elem_of_nil in Hc.
Qed.

Lemma fill_columns_rows (df : DataFrame) cols :
  rows df = [] ∨ (∀ c, c ∈ cols → c ∈ columns df) →
  rows (foldl (λ df col,
                 if bool_decide (col ∈ columns df) then df
                 else Pandas.set_column col "N/A" df) df cols)
  = rows df.
Proof.
  revert df. induction cols as [|col cols IH]; intros df Hdf; simpl; [done |].
  case_bool_decide as Hcol.
  - apply IH. destruct Hdf as [?|Hdf]; [by left |].
    right. intros c Hc. apply Hdf. by right.
  - destruct Hdf as [Hempty|Hdf]; [| destruct Hcol; apply Hdf; by left].
    rewrite IH; simpl; rewrite Hempty; [done | by left].
Qed.

(** When every record has a value in every column, the table written has the
    columns of [COLUMNS] and, line by line, the values of the records. *)
Lemma output_frame_complete properties :
  Forall (λ r : Row, ∀ c, c ∈ FastScrap3.COLUMNS → is_Some (r !! c)) properties →
  Pandas.to_csv (FastScrap3.output_frame properties)
  = Csv FastScrap3.COLUMNS (Pandas.write_row FastScrap3.COLUMNS <$> properties).
Proof.
  intros Hcomplete. unfold FastScrap3.output_frame, Pandas.to_csv, Pandas.select.
  cbn [columns rows]. f_equal. rewrite fill_columns_rows.
  - cbn [Pandas.DataFrame_of rows]. rewrite <- list_fmap_compose.
    apply list_fmap_ext. intros _ r _. unfold compose.
    apply map_eq. intros c. rewrite !write_row_lookup.
    destruct (decide (c ∈ FastScrap3.COLUMNS)) as [Hc|]; [| done].
    f_equal. unfold Pandas.cell_text. rewrite map_lookup_filter.
    destruct (r !! c) as [v|]; simpl; [| done].
    by rewrite option_guard_True.
  - destruct properties as [|r properties]; [by left |]. right.
    intros c Hc. apply elem_of_columns_DataFrame_of. exists r.
    split; [by left |]. apply Forall_cons in Hcomplete as [Hr _]. by apply Hr.
Qed.

(** ** The backup name differs from the name of every .csv table *)

Lemma prefix_length (p s : string) :
  String.prefix p s = true → String.length p ≤ String.length s.
Proof.
  revert s. induction p as [|a p IH]; intros s; simpl; [lia |].
  destruct s as [|b s]; [done |]. simpl.
  destruct (Ascii.ascii_dec a b); [| done]. intros ?%IH. lia.
Qed.

Lemma append_length (s1 s2 : string) :
  String.length (s1 +:+ s2) = String.length s1 + String.length s2.
Proof.
  induction s1 as [|c s1 IH]; [done |].
  change (S (String.length (s1 +:+ s2)) = S (String.length s1) + String.length s2).
  by rewrite IH.
Qed.

Lemma replace_go_length old new skip s :
  0 < String.length old ≤ String.length new →
  skip ≤ String.length s →
  String.length s ≤ String.length (PyStr.replace_go old new skip s) + skip.
Proof.
  intros Hlen. revert skip.
  induction s as [|c s IH]; intros skip Hskip;
    cbn [PyStr.replace_go String.length] in *; [lia |].
  destruct skip as [|k].
  - destruct (String.prefix old (String c s)) eqn:Hp.
    + apply prefix_length in Hp. cbn [String.length] in Hp. rewrite append_length.
      specialize (IH (String.length old - 1)). lia.
    + cbn [String.length]. specialize (IH 0). lia.
  - specialize (IH k). lia.
Qed.

(** Replacing a text by a longer one lengthens every string that holds it. *)
Lemma replace_longer old new s :
  0 < String.length old < String.length new →
  PyStr.contains old s = true →
  String.length s < String.length (PyStr.replace old new s).
Proof.
  intros Hlen. unfold PyStr.replace.
  induction s as [|c s IH];
    cbn [PyStr.replace_go PyStr.contains String.length].
  - intros Hp%prefix_length. cbn [String.length] in Hp. lia.
  - destruct (String.prefix old (String c s)) eqn:Hp; cbn [orb String.length].
    + intros _. apply prefix_length in Hp. cbn [String.length] in Hp.
      rewrite append_length.
      pose proof (replace_go_length old new (String.length old - 1) s). lia.
    + intros ?%IH. lia.
Qed.

Lemma backup_path_differs output_path stamp :
  PyStr.contains ".csv" output_path = true →
  Web2.backup_path output_path stamp ≠ output_path.
Proof.
  intros Hcsv Heq. unfold Web2.backup_path in Heq.
  pose proof (replace_longer ".csv" ("_backup_" +:+ stamp +:+ ".csv") output_path)
    as Hlonger.
  rewrite Heq in Hlonger. rewrite !append_length in Hlonger. simpl in Hlonger.
  specialize (Hlonger ltac:(lia) Hcsv). lia.
Qed.

(** * Further properties of the code *)

(** ** web2.py: what [save_to_csv] guarantees *)

Lemma default_empty_inj (o1 o2 : option string) :
  o1 ≠ Some "" → o2 ≠ Some "" → default "" o1 = default "" o2 → o1 = o2.
Proof. destruct o1, o2; simpl; congruence. Qed.

(** The key text of a written line is the key of the row, a missing value
    written as the empty text. *)
Lemma key_text_written cols (r : Row) :
  Forall (λ c, c ∈ cols) Web2.KEY →
  Web2.key_text (Pandas.write_row cols r) = default "" <$> Web2.natural_key r.
Proof.
  intros Hkey. unfold Web2.key_text, Web2.natural_key, Pandas.key_of.
  rewrite <- list_fmap_compose. apply Forall_fmap_ext.
  eapply Forall_impl; [exact Hkey |]. intros c Hc; simpl.
  unfold Pandas.cell_text at 1. by rewrite write_row_lookup, decide_True.
Qed.

(** Rows with pairwise distinct keys, none of which holds the empty text,
    are written as lines with pairwise distinct key texts. *)
Lemma written_keys_distinct cols (l : list Row) :
  Forall (λ c, c ∈ cols) Web2.KEY →
  Forall (λ r : Row, Forall (λ c, r !! c ≠ Some "") Web2.KEY) l →
  NoDup (Web2.natural_key <$> l) →
  NoDup (Web2.key_text <$> (Pandas.write_row cols <$> l)).
Proof.
  intros Hkey Hl Hnd.
  assert (Hwritten : Web2.key_text <$> (Pandas.write_row cols <$> l)
                     = (fmap (default "")) <$> (Web2.natural_key <$> l)).
  { rewrite <- !list_fmap_compose. apply list_fmap_ext. intros _ r _.
    by apply key_text_written. }
  rewrite Hwritten. apply NoDup_fmap_2_strong; [| done].
  intros k1 k2 (r1 & -> & Hr1)%list_elem_of_fmap (r2 & -> & Hr2)%list_elem_of_fmap.
  rewrite Forall_forall in Hl. pose proof (Hl r1 Hr1) as H1. pose proof (Hl r2 Hr2) as H2.
  unfold Web2.natural_key, Pandas.key_of, Web2.KEY in *. csimpl.
  apply Forall_cons in H1 as [H1a H1]. apply Forall_cons in H1 as [H1b _].
  apply Forall_cons in H2 as [H2a H2]. apply Forall_cons in H2 as [H2b _].
  intros [= Ha Hb]. f_equal; [| f_equal]; by apply default_empty_inj.
Qed.

(** No loaded row holds the empty text: it is an NA marker. *)
Lemma read_row_nonempty (line : Row) c : Pandas.read_row line !! c ≠ Some "".
Proof.
  rewrite read_row_lookup. destruct (line !! c) as [text|]; [| done].
  destruct (Pandas.is_na text) eqn:Hna; [done |]. by intros [= ->].
Qed.

Lemma new_frame_nonempty properties scraped_date :
  Forall (λ p : Row, Forall (λ c, p !! c ≠ Some "") Web2.KEY) properties →
  Forall (λ r : Row, Forall (λ c, r !! c ≠ Some "") Web2.KEY)
    (rows (Web2.new_frame properties scraped_date)).
Proof.
  intros Hbatch. unfold Web2.new_frame, Pandas.set_column, Pandas.DataFrame_of.
  cbn [rows]. apply Forall_fmap. eapply Forall_impl; [exact Hbatch |].
  intros p Hp; simpl. rewrite Forall_forall in Hp. apply Forall_forall.
  intros c Hc. rewrite lookup_insert_ne; [by apply Hp |].
  intros <-. revert Hc. decide_by_evaluation.
Qed.





(** [save_to_csv] on a batch of keyed records returns [True] exactly when the
    batch is not empty.  When it returns [False] the file system is as
    before; when it returns [True] the file at [output_path] is a table that
    [read_csv] loads and that has both columns of the natural key, whatever
    was at that path before. *)
Theorem save_to_csv_result_loads
    properties output_path scraped_date stamp (fs : FS) :
  Forall Web2.keyed properties →
  let result := Web2.save_to_csv properties output_path scraped_date stamp fs in
  (result.1 = true ↔ properties ≠ [])
  ∧ (result.1 = false → result.2 = fs)
  ∧ (result.1 = true →
     ∃ df, result.2 !! output_path ≫= Pandas.read_csv = Some df
           ∧ Forall (λ c, c ∈ Pandas.labels df) Web2.KEY).
Proof.
  intros Hkeyed result. subst result. unfold Web2.save_to_csv.
  destruct (decide (properties = [])) as [->|Hne].
  { simpl. split; [split; [discriminate | done] |]. split; [done | discriminate]. }
  rewrite bool_decide_eq_false_2 by done.
  pose proof (new_frame_keyed properties scraped_date Hne Hkeyed) as Hcols.
  assert (Hgoal : ∀ written (fs' : FS),
            (∃ df, Pandas.read_csv written = Some df
                   ∧ Forall (λ c, c ∈ Pandas.labels df) Web2.KEY) →
            let result := (true, <[output_path := written]> fs') in
            (result.1 = true ↔ properties ≠ [])
            ∧ (result.1 = false → result.2 = fs)
            ∧ (result.1 = true →
               ∃ df, result.2 !! output_path ≫= Pandas.read_csv = Some df
                     ∧ Forall (λ c, c ∈ Pandas.labels df) Web2.KEY)).
  { intros written fs' Hwritten. cbn [fst snd]. split; [done |].
    split; [discriminate |]. intros _. by rewrite lookup_insert_eq. }
  assert (Hframe : ∀ df, Forall (λ c, c ∈ columns df) Web2.KEY →
            ∃ loaded, Pandas.read_csv (Pandas.to_csv df) = Some loaded
                      ∧ Forall (λ c, c ∈ Pandas.labels loaded) Web2.KEY).
  { intros df Hdf. destruct (read_csv_to_csv df) as (loaded & Hloaded & Hlabels).
    exists loaded. split; [done |]. by rewrite Hlabels. }
  destruct (fs !! output_path) as [content|] eqn:Hfs.
  - destruct (Web2.merge content (Web2.new_frame properties scraped_date))
      as [written|] eqn:Hmerge.
    + apply Hgoal. unfold Web2.merge in Hmerge.
      destruct (Pandas.read_csv content) as [[existing_df|labels]|]; [| | done];
        cbn [mbind option_bind] in Hmerge.
      * unfold Pandas.drop_duplicates in Hmerge.
        case_bool_decide as Hkey; [| done]. injection Hmerge as <-.
        by apply Hframe.
      * case_bool_decide as Hkey; [| done]. injection Hmerge as <-.
        by eexists.
    + by apply Hgoal, Hframe.
  - rewrite drop_duplicates_Some by done. by apply Hgoal, Hframe.
Qed.

Lemma save_to_csv_result_loads_witness :
  let result :=
    Web2.save_to_csv Fixtures.located Web2.OUTPUT_PATH
      "2024-02-02 09:00:00" "20240202_090000" Fixtures.corrupt in
  (result.1 = true ↔ Fixtures.located ≠ [])
  ∧ (result.1 = false → result.2 = Fixtures.corrupt)
  ∧ (result.1 = true →
     ∃ df, result.2 !! Web2.OUTPUT_PATH ≫= Pandas.read_csv = Some df
           ∧ Forall (λ c, c ∈ Pandas.labels df) Web2.KEY).
Proof.
  apply (save_to_csv_result_loads Fixtures.located Web2.OUTPUT_PATH
           "2024-02-02 09:00:00" "20240202_090000" Fixtures.corrupt).
  decide_by_evaluation.
Defined.

(** [s.replace(old, new)] leaves a string without [old] as it is. *)
Lemma replace_absent old new s :
  PyStr.contains old s = false → PyStr.replace old new s = s.
Proof.
  unfold PyStr.replace.
  induction s as [|c s IH]; cbn [PyStr.contains PyStr.replace_go]; [done |].
  intros [Hp Hs]%orb_false_iff. rewrite Hp. by rewrite IH.
Qed.

(** No backup is made of an unreadable table whose path does not contain
    ".csv": the backup name is then the path itself, the rename changes
    nothing, and the batch is written over the file.  Afterwards the old
    content is found only where a copy of it already was. *)
Theorem save_to_csv_overwrites_without_csv
    properties output_path scraped_date stamp (fs : FS) content :
  properties ≠ [] →
  fs !! output_path = Some content →
  Pandas.read_csv content = None →
  PyStr.contains ".csv" output_path = false →
  let result := Web2.save_to_csv properties output_path scraped_date stamp fs in
  Web2.backup_path output_path stamp = output_path
  ∧ result
    = (true,
       <[output_path :=
           Pandas.to_csv (Web2.new_frame properties scraped_date)]> fs)
  ∧ ∀ path, result.2 !! path = Some content →
      path ≠ output_path ∧ fs !! path = Some content.
Proof.
  intros Hne Hfs Hload Hcsv result.
  assert (Hbackup : Web2.backup_path output_path stamp = output_path)
    by (by apply replace_absent).
  assert (Hresult : result
            = (true,
               <[output_path :=
                   Pandas.to_csv (Web2.new_frame properties scraped_date)]> fs)).
  { subst result. unfold Web2.save_to_csv.
    rewrite bool_decide_eq_false_2 by done. rewrite Hfs.
    rewrite merge_None by done. cbn zeta.
    unfold Os.exists_. rewrite bool_decide_eq_true_2 by (by rewrite Hfs).
    unfold Os.rename. rewrite Hfs, Hbackup.
    by rewrite insert_delete_eq, insert_insert_eq. }
  split; [done |]. split; [done |].
  intros path. rewrite Hresult. cbn [snd].
  destruct (decide (path = output_path)) as [->|Hpath].
  - rewrite lookup_insert_eq. intros [= <-].
    destruct (read_csv_to_csv (Web2.new_frame properties scraped_date))
      as (loaded & Hloaded & _). congruence.
  - by rewrite lookup_insert_ne.
Qed.

Lemma save_to_csv_overwrites_without_csv_witness :
  let result :=
    Web2.save_to_csv Fixtures.located Scenarios.TABLE
      "2024-02-02 09:00:00" "20240202_090000" Scenarios.corrupt_table in
  Web2.backup_path Scenarios.TABLE "20240202_090000" = Scenarios.TABLE
  ∧ result
    = (true,
       <[Scenarios.TABLE :=
           Pandas.to_csv (Web2.new_frame Fixtures.located "2024-02-02 09:00:00")]>
         Scenarios.corrupt_table)
  ∧ ∀ path, result.2 !! path = Some (Unreadable Fixtures.saved_as_utf16) →
      path ≠ Scenarios.TABLE
      ∧ Scenarios.corrupt_table !! path = Some (Unreadable Fixtures.saved_as_utf16).
Proof.
  apply (save_to_csv_overwrites_without_csv Fixtures.located Scenarios.TABLE
           "2024-02-02 09:00:00" "20240202_090000" Scenarios.corrupt_table).
  - discriminate.
  - vm_compute. reflexivity.
  - reflexivity.
  - vm_compute. reflexivity.
Defined.

Lemma backup_path_differs_witness :
  PyStr.contains ".csv" "exports/delhi.csv.old" = true
  ∧ Web2.backup_path "exports/delhi.csv.old" "20240202_090000"
    ≠ "exports/delhi.csv.old".
Proof.
  split; [vm_compute; reflexivity |].
  apply backup_path_differs. vm_compute. reflexivity.
Defined.

(** [save_to_csv] touches two paths at most: the table and its backup name.
    Every other file is left as it was, whatever the batch and the state of
    the table. *)
Theorem save_to_csv_frame properties output_path scraped_date stamp (fs : FS) path :
  path ≠ output_path →
  path ≠ Web2.backup_path output_path stamp →
  (Web2.save_to_csv properties output_path scraped_date stamp fs).2 !! path
  = fs !! path.
Proof.
  intros Hpath Hbackup. unfold Web2.save_to_csv.
  case_bool_decide; [done |].
  destruct (fs !! output_path) as [content|] eqn:Hfs.
  - destruct (Web2.merge _ _); cbn [snd].
    + by rewrite lookup_insert_ne.
    + rewrite lookup_insert_ne by done. unfold Os.exists_, Os.rename.
      rewrite bool_decide_eq_true_2 by (by rewrite Hfs). rewrite Hfs.
      rewrite lookup_insert_ne by done. by rewrite lookup_delete_ne.
  - destruct (Pandas.drop_duplicates _ _); cbn [snd]; [| done].
    by rewrite lookup_insert_ne.
Qed.

Lemma save_to_csv_frame_witness :
  (Web2.save_to_csv Fixtures.located Web2.OUTPUT_PATH
     "2024-02-02 09:00:00" "20240202_090000"
     (<["notes.txt" := Unreadable "keep"]> Fixtures.corrupt)).2 !! "notes.txt"
  = <["notes.txt" := Unreadable "keep"]> Fixtures.corrupt !! "notes.txt".
Proof.
  apply save_to_csv_frame.
  - vm_compute. discriminate.
  - vm_compute. discriminate.
Defined.

(** ** web2.py: the records of [extract_property_data] *)

Lemma sentinels_lookup (fields : list string) c :
  foldr (λ f (d : Row), <[f := "N/A"]> d) ∅ fields !! c
  = if decide (c ∈ fields) then Some "N/A" else None.
Proof.
  induction fields as [|f fields IH]; simpl; [done |].
  destruct (decide (f = c)) as [->|Hne].
  - rewrite lookup_insert_eq. rewrite decide_True; [done | by left].
  - rewrite lookup_insert_ne by done. rewrite IH.
    destruct (decide (c ∈ fields)).
    + rewrite decide_True; [done | by right].
    + rewrite decide_False; [done |]. by intros [?|?]%elem_of_cons.
Qed.

Lemma assign_is_Some_inv (d : Row) found c :
  is_Some (PyDict.assign d found !! c) →
  is_Some (d !! c) ∨ c ∈ found.*1.
Proof.
  unfold PyDict.assign. revert d.
  induction found as [|[field value] found IH]; intros d; csimpl; [by left |].
  intros [Hd|Hc]%IH; [| right; by right].
  destruct value as [v|]; simpl in Hd; [| by left].
  destruct (decide (field = c)) as [->|Hne]; [right; by left |].
  rewrite lookup_insert_ne in Hd by done. by left.
Qed.

(** Every record that [extract_property_data] returns has exactly the nine
    fields of the dict literal, holds both fields of the natural key and a
    title that is neither the sentinel nor shorter than three characters;
    its "Posted By" field, which no statement assigns, is the sentinel. *)
Theorem extract_property_data_record (listing : Web2.Listing) (d : Row) :
  Web2.extract_property_data listing = Some d →
  (∀ c, is_Some (d !! c) ↔ c ∈ Web2.FIELDS)
  ∧ d !! "Posted By" = Some "N/A"
  ∧ Web2.keyed d
  ∧ Web2.valid_title d.
Proof.
  intros Hd.
  assert (Hdom : ∀ c, is_Some (d !! c) ↔ c ∈ Web2.FIELDS).
  { pose proof (extract_property_data_Some _ _ Hd) as ->. intros c. split.
    - intros [Hc|Hc]%assign_is_Some_inv.
      + unfold Web2.blank in Hc. rewrite sentinels_lookup in Hc.
        by destruct (decide (c ∈ Web2.FIELDS)); [| destruct Hc].
      + revert Hc. unfold Web2.extracted, Web2.FIELDS. csimpl.
        rewrite !elem_of_cons, !elem_of_nil. naive_solver.
    - intros Hc. apply assign_is_Some. unfold Web2.blank.
      rewrite sentinels_lookup, decide_True by done. by eexists. }
  split; [done |]. split; [| split].
  - pose proof (extract_property_data_Some _ _ Hd) as ->.
    rewrite assign_lookup_unset; [by vm_compute |].
    intros v Hv. unfold Web2.extracted in Hv.
    repeat (apply elem_of_cons in Hv as [Hv|Hv]; [discriminate Hv |]).
    by apply elem_of_nil in Hv.
  - unfold Web2.keyed, Web2.KEY. repeat constructor; apply Hdom; decide_by_evaluation.
  - unfold Web2.extract_property_data in Hd.
    rewrite extract_property_data_title in Hd. simpl in Hd.
    destruct (bool_decide _) eqn:Hna; [done |].
    destruct (String.length _ <? 3) eqn:Hlen; [done |].
    injection Hd as <-. eexists. split; [apply extract_property_data_title |].
    apply bool_decide_eq_false in Hna. apply Nat.ltb_ge in Hlen. done.
Qed.

Lemma extract_property_data_record_witness :
  ∃ d,
    Web2.extract_property_data (Scenarios.card " 3 BHK Flat " "Dwarka" "45,000")
    = Some d
    ∧ (∀ c, is_Some (d !! c) ↔ c ∈ Web2.FIELDS)
    ∧ d !! "Posted By" = Some "N/A"
    ∧ Web2.keyed d
    ∧ Web2.valid_title d.
Proof.
  assert (Hd : Web2.extract_property_data
                 (Scenarios.card " 3 BHK Flat " "Dwarka" "45,000")
               = Some (Fixtures.record "3 BHK Flat" "Dwarka" "45,000"))
    by decide_by_evaluation.
  eexists. split; [exact Hd |].
  exact (extract_property_data_record _ _ Hd).
Defined.

(** ** web2.py: [scrape_page] and [main] *)

Lemma extract_listings_record listings d :
  d ∈ Web2.extract_listings listings →
  ∃ listing, listing ∈ take 30 listings
             ∧ Web2.extract_property_data listing = Some d.
Proof.
  unfold Web2.extract_listings. intros (listing & Hl & Hd)%list_elem_of_omap.
  exists listing. split; [done |].
  destruct (Web2.extract_property_data listing) as [d'|]; [| done].
  cbn [mbind option_bind] in Hd. by destruct (_ && _); [injection Hd as -> |].
Qed.

Lemma length_omap_le {A B} (f : A → option B) (l : list A) :
  length (omap f l) ≤ length l.
Proof.
  induction l as [|x l IH]; csimpl; [done |].
  destruct (f x); simpl; lia.
Qed.

Lemma length_extract_listings listings :
  length (Web2.extract_listings listings) ≤ 30.
Proof.
  unfold Web2.extract_listings.
  etrans; [apply length_omap_le |]. rewrite length_take. lia.
Qed.

Lemma attempts_records load remaining properties :
  Web2.attempts load remaining = Web2.Returned properties →
  properties = []
  ∨ ∃ page, properties
            = Web2.extract_listings (Web2.find_listings page Web2.LISTING_SELECTORS).
Proof.
  induction remaining as [|attempt rest IH]; simpl.
  - intros [= <-]. by left.
  - destruct (load attempt) as [page|]; [| done].
    case_bool_decide; [done |]. case_bool_decide; [| done].
    intros [= <-]. right. by exists page.
Qed.

Lemma extract_property_data_valid (listing : Web2.Listing) (d : Row) :
  Web2.extract_property_data listing = Some d →
  Web2.keyed d ∧ Web2.valid_title d.
Proof.
  intros Hd. pose proof (extract_property_data_Some _ _ Hd) as Hassign. split.
  - subst d. unfold Web2.keyed, Web2.KEY.
    rewrite !Forall_cons, Forall_nil.
    split; [| split; [| done]]; apply assign_is_Some; vm_compute; by eexists.
  - unfold Web2.extract_property_data in Hd.
    rewrite extract_property_data_title in Hd. simpl in Hd.
    destruct (bool_decide _) eqn:Hna; [done |].
    destruct (String.length _ <? 3) eqn:Hlen; [done |].
    injection Hd as <-. eexists. split; [apply extract_property_data_title |].
    apply bool_decide_eq_false in Hna. apply Nat.ltb_ge in Hlen. done.
Qed.

Lemma scrape_page_valid browser page_number properties :
  Web2.scrape_page browser page_number = Web2.Returned properties →
  Forall (λ d, Web2.keyed d ∧ Web2.valid_title d) properties.
Proof.
  unfold Web2.scrape_page. intros [->|[page ->]]%attempts_records; [constructor |].
  apply Forall_forall. intros d (listing & _ & Hd)%extract_listings_record.
  by apply (extract_property_data_valid listing).
Qed.

(** A page gives at most thirty records, each with the two key fields and an
    accepted title. *)
Theorem scrape_page_records browser page_number properties :
  Web2.scrape_page browser page_number = Web2.Returned properties →
  length properties ≤ 30
  ∧ Forall (λ d, Web2.keyed d ∧ Web2.valid_title d) properties.
Proof.
  intros Hpage. split; [| by apply (scrape_page_valid browser page_number)].
  unfold Web2.scrape_page in Hpage.
  apply attempts_records in Hpage as [->|[page ->]]; [simpl; lia |].
  apply length_extract_listings.
Qed.

Lemma scrape_page_records_witness :
  ∃ properties,
    Web2.scrape_page Scenarios.serving 1 = Web2.Returned properties
    ∧ length properties = 6
    ∧ length properties ≤ 30
    ∧ Forall (λ d, Web2.keyed d ∧ Web2.valid_title d) properties.
Proof.
  assert (Hpage : Web2.scrape_page Scenarios.serving 1
                  = Web2.Returned Scenarios.six_records)
    by decide_by_evaluation.
  eexists. split; [exact Hpage |]. split; [reflexivity |].
  exact (scrape_page_records _ _ _ Hpage).
Defined.

(** How [scrape_page] ends.  It raises exactly when the first load raises or
    finds no listing, or when the first load finds listings without any
    record and the second raises or finds no listing: such a load is never
    retried, because [save_debug_info] is not defined in web2.py.  It returns
    the empty list exactly when both loads find listings without any
    record. *)
Theorem scrape_page_outcome browser page_number :
  let load := browser (Web2.page_url page_number) in
  (Web2.scrape_page browser page_number = Web2.Raised
   ↔ Web2.no_listings (load 1)
     ∨ (Web2.no_record (load 1) ∧ Web2.no_listings (load 2)))
  ∧ (Web2.scrape_page browser page_number = Web2.Returned []
     ↔ Web2.no_record (load 1) ∧ Web2.no_record (load 2)).
Proof.
  intros load. unfold Web2.scrape_page. fold load.
  unfold Web2.MAX_RETRIES, Web2.no_listings, Web2.no_record.
  cbn [seq Web2.attempts].
  destruct (load 1) as [page1|]; [| split; split; naive_solver].
  case_bool_decide as H1; [split; split; naive_solver |].
  case_bool_decide as E1.
  { split; split; try naive_solver; intros [= HE]; by rewrite HE in E1. }
  destruct (load 2) as [page2|]; [| split; split; naive_solver].
  case_bool_decide as H2; [split; split; naive_solver |].
  case_bool_decide as E2.
  { split; split; try naive_solver; intros [= HE]; by rewrite HE in E2. }
  split; split; naive_solver.
Qed.

Lemma scrape_page_outcome_witness :
  Web2.scrape_page Scenarios.blocking 1 = Web2.Raised.
Proof.
  apply (scrape_page_outcome Scenarios.blocking 1). left. vm_compute. reflexivity.
Defined.

Lemma save_to_csv_succeeds properties output_path scraped_date stamp (fs : FS) :
  properties ≠ [] → Forall Web2.keyed properties →
  (Web2.save_to_csv properties output_path scraped_date stamp fs).1 = true.
Proof.
  intros Hne Hkeyed. unfold Web2.save_to_csv.
  rewrite bool_decide_eq_false_2 by done.
  destruct (fs !! output_path) as [content|].
  - by destruct (Web2.merge _ _).
  - by rewrite drop_duplicates_Some by by apply new_frame_keyed.
Qed.

(** What a run of [main] leaves.  When the driver cannot be built, or the
    first page raises or gives no record, the file system is as before: no
    table is written and no backup made.  When the first page gives records,
    [main] saves exactly them, and the save succeeds. *)
Theorem main_outcome driver_built browser scraped_date stamp (fs : FS) :
  let fs' := Web2.main driver_built browser scraped_date stamp fs in
  (driver_built = false
   ∨ Web2.scrape_page browser 1 = Web2.Raised
   ∨ Web2.scrape_page browser 1 = Web2.Returned [] → fs' = fs)
  ∧ (∀ data,
       driver_built = true →
       Web2.scrape_page browser 1 = Web2.Returned data → data ≠ [] →
       Web2.save_to_csv data Web2.OUTPUT_PATH scraped_date stamp fs = (true, fs')).
Proof.
  intros fs'. subst fs'. unfold Web2.main, Web2.TOTAL_PAGES.
  change (seqZ 1 1) with [1%Z]. cbn [Web2.scrape_pages]. split.
  - intros [->|[Hpage|Hpage]]; [done | |]; destruct driver_built; try done;
      by rewrite Hpage.
  - intros data -> Hpage Hdata. rewrite Hpage.
    rewrite (bool_decide_eq_true_2 (data ≠ [])) by done.
    rewrite (bool_decide_eq_false_2 (data = [])) by done.
    rewrite andb_false_r. cbn [Web2.scrape_pages app].
    rewrite (bool_decide_eq_true_2 (data ≠ [])) by done.
    pose proof (save_to_csv_succeeds data Web2.OUTPUT_PATH scraped_date stamp fs
                  Hdata) as Hok.
    destruct (Web2.save_to_csv data Web2.OUTPUT_PATH scraped_date stamp fs)
      as [ok fs''].
    cbn [fst snd] in *. rewrite Hok; [done |].
    eapply Forall_impl; [by apply (scrape_page_valid browser 1) |].
    by intros d [? _].
Qed.

Lemma main_outcome_witness :
  Web2.main true Scenarios.blocking "2024-02-02 09:00:00" "20240202_090000"
    Fixtures.corrupt = Fixtures.corrupt
  ∧ ∃ data,
      Web2.scrape_page Scenarios.serving 1 = Web2.Returned data
      ∧ Web2.save_to_csv data Web2.OUTPUT_PATH "2024-02-02 09:00:00"
          "20240202_090000" Fixtures.one_listing
        = (true,
           Web2.main true Scenarios.serving "2024-02-02 09:00:00"
             "20240202_090000" Fixtures.one_listing).
Proof.
  split.
  - apply (main_outcome true Scenarios.blocking). right. left.
    vm_compute. reflexivity.
  - assert (Hpage : Web2.scrape_page Scenarios.serving 1
                    = Web2.Returned Scenarios.six_records)
      by decide_by_evaluation.
    eexists. split; [exact Hpage |].
    apply (main_outcome true Scenarios.serving);
      [reflexivity | exact Hpage | discriminate].
Defined.

(** ** fastscrap3.py and webscrap2.py: the listing URLs *)

(** [scrape_all] submits exactly the listing pages from 36 to [num_pages],
    each once: pages 1 to 35 are never walked, and of [num_pages] pages asked
    for only [num_pages - 35] are. *)
Theorem pages_from_36 (num_pages : Z) :
  (∀ page, page ∈ FastScrap3.pages num_pages ↔ (36 ≤ page ≤ num_pages)%Z)
  ∧ NoDup (FastScrap3.pages num_pages)
  ∧ length (FastScrap3.pages num_pages) = Z.to_nat (num_pages - 35).
Proof.
  unfold FastScrap3.pages. split; [| split].
  - intros page. rewrite elem_of_seqZ. lia.
  - apply NoDup_seqZ.
  - rewrite length_seqZ. f_equal. lia.
Qed.

Lemma absolute_http href : PyStr.startswith "http" (Links.absolute href) = true.
Proof.
  unfold Links.absolute.
  destruct (PyStr.startswith "http" href) eqn:Hhttp; [done |].
  by destruct (PyStr.startswith "/" href).
Qed.

Lemma kept_wellformed href u :
  Links.kept href = Some u →
  PyStr.startswith "http" u = true ∧ PyStr.contains "/search/" u = false.
Proof.
  unfold Links.kept. case_bool_decide; [done |].
  destruct (Links.is_property_link href); [| done].
  destruct (PyStr.contains "/search/" (Links.absolute href)) eqn:Hsearch; [done |].
  intros [= <-]. split; [apply absolute_http | done].
Qed.

(** The URLs extracted from a listing page, by either scraper, are pairwise
    distinct, absolute (they start with "http") and free of "/search/". *)
Theorem extract_urls_wellformed (all_links : list string) :
  (NoDup (FastScrap3.extract_urls all_links)
   ∧ ∀ u, u ∈ FastScrap3.extract_urls all_links →
       PyStr.startswith "http" u = true ∧ PyStr.contains "/search/" u = false)
  ∧ (NoDup (WebScrap2.extract_urls all_links)
     ∧ ∀ u, u ∈ WebScrap2.extract_urls all_links →
         PyStr.startswith "http" u = true ∧ PyStr.contains "/search/" u = false).
Proof.
  split; (split; [apply NoDup_fromkeys |]); intros u Hu.
  - apply (proj1 (elem_of_extract_urls all_links u)) in Hu as (href & _ & Hk).
    by apply (kept_wellformed href).
  - apply (proj2 (elem_of_extract_urls all_links u)) in Hu as (href & _ & Hk).
    by apply (kept_wellformed href).
Qed.

Lemma filter_all {A} (P : A → Prop) `{!∀ x, Decision (P x)} (l : list A) :
  (∀ x, x ∈ l → P x) → filter P l = l.
Proof.
  induction l as [|x l IH]; intros HP; [done |].
  rewrite filter_cons_True by (apply HP; by left).
  f_equal. apply IH. intros y Hy. apply HP. by right.
Qed.

Lemma fromkeys_NoDup l : NoDup l → PyDict.fromkeys l = l.
Proof.
  induction l as [|x l IH]; intros Hnd; simpl; [done |].
  apply NoDup_cons in Hnd as [Hx Hnd]. rewrite IH by done. f_equal.
  apply filter_all. intros y Hy ->. done.
Qed.

(** The loop of fastscrap3.py adds to the accumulator, in order and once
    each, the kept URLs that it does not hold yet. *)
Lemma fastscrap3_collect_links_fromkeys acc all_links :
  FastScrap3.collect_links acc all_links
  = acc ++ filter (λ u, u ∉ acc) (PyDict.fromkeys (omap Links.kept all_links)).
Proof.
  revert acc. induction all_links as [|href rest IH]; intros acc; csimpl.
  - by rewrite app_nil_r.
  - unfold Links.kept at 1.
    destruct (bool_decide (href = "")); [apply IH |].
    destruct (Links.is_property_link href); [| apply IH].
    destruct (PyStr.contains "/search/" (Links.absolute href)); cbn [negb andb];
      [apply IH |].
    set (u := Links.absolute href). cbn [PyDict.fromkeys].
    destruct (bool_decide (u ∉ acc)) eqn:Hu.
    + apply bool_decide_eq_true in Hu. rewrite IH.
      rewrite filter_cons_True by done. rewrite <- app_assoc. cbn [app].
      do 2 f_equal. rewrite list_filter_filter. apply list_filter_iff.
      intros x. rewrite elem_of_app, list_elem_of_singleton. naive_solver.
    + apply bool_decide_eq_false, dec_stable in Hu. rewrite IH.
      rewrite filter_cons_False by (by intros ?). f_equal.
      symmetry. apply list_filter_filter_l. by intros x Hx ->.
Qed.

(** The two scrapers extract the same URLs from a listing page, in the same
    order: the membership test inside the loop of fastscrap3.py and the
    [dict.fromkeys] after the loop of webscrap2.py remove the same
    repetitions. *)
Theorem extract_urls_variants_agree (all_links : list string) :
  FastScrap3.extract_urls all_links = WebScrap2.extract_urls all_links.
Proof.
  unfold FastScrap3.extract_urls, WebScrap2.extract_urls.
  rewrite fastscrap3_collect_links_fromkeys, webscrap2_collect_links.
  cbn [app]. rewrite filter_all by (intros; apply not_elem_of_nil).
  apply fromkeys_NoDup, NoDup_fromkeys.
Qed.

(** ** fastscrap3.py: the walk, the run and its table *)

(** The walk returns each URL once, and a URL is returned exactly when one
    of the submitted pages links to it, whatever the order in which the page
    tasks complete. *)
Theorem walk_urls listing completed_pages property_type city (submitted : list Z) :
  (∀ l : list Z, completed_pages l ≡ₚ l) →
  NoDup (FastScrap3.walk listing completed_pages property_type city submitted)
  ∧ ∀ u,
      u ∈ FastScrap3.walk listing completed_pages property_type city submitted
      ↔ ∃ page, page ∈ submitted
                ∧ u ∈ FastScrap3.extract_urls_from_page listing property_type
                        city page.
Proof.
  intros Hsched. unfold FastScrap3.walk. split; [apply NoDup_fromkeys |].
  intros u. rewrite elem_of_fromkeys, list_elem_of_bind.
  split; intros (page & ? & ?); exists page.
  - by rewrite <- (Hsched submitted).
  - by rewrite (Hsched submitted).
Qed.

Lemma walk_urls_witness :
  NoDup (FastScrap3.walk Fixtures.one_link Fixtures.reversed "rent" "delhi"
           [36; 37; 38]%Z)
  ∧ ∀ u,
      u ∈ FastScrap3.walk Fixtures.one_link Fixtures.reversed "rent" "delhi"
            [36; 37; 38]%Z
      ↔ ∃ page, page ∈ [36; 37; 38]%Z
                ∧ u ∈ FastScrap3.extract_urls_from_page Fixtures.one_link
                        "rent" "delhi" page.
Proof.
  apply walk_urls. intros l. apply reverse_Permutation.
Defined.

(** How [scrape_all] ends, whatever the site and the scheduling.  It never
    drops a record that the scraper already held.  It returns [True] exactly
    when the walk found a URL and the scraper holds a record afterwards; then
    it writes the table of all the records held, old ones included, to the
    timestamped file.  When it returns [False] the file system is as
    before. *)
Theorem scrape_all_outcome
    re_search re_findall listing detail clock completed_pages completed_urls
    property_type city (num_pages : Z) properties stamp (fs : FS) :
  let result :=
    FastScrap3.scrape_all re_search re_findall listing detail clock
      completed_pages completed_urls property_type city num_pages
      properties stamp fs in
  let held := result.1.2 in
  (∃ added, held = properties ++ added)
  ∧ (result.1.1.1 = true
     ↔ FastScrap3.walk listing completed_pages property_type city
         (FastScrap3.pages num_pages) ≠ []
       ∧ held ≠ [])
  ∧ (result.1.1.1 = true →
     result.2
     = <[FastScrap3.filename stamp :=
           Pandas.to_csv (FastScrap3.output_frame held)]> fs)
  ∧ (result.1.1.1 = false → result.2 = fs).
Proof.
  intros result held. subst held result. unfold FastScrap3.scrape_all.
  case_bool_decide as Hwalk.
  { cbn [fst snd]. split; [exists []; by rewrite app_nil_r |].
    split; [split; [done | by intros [? _]] |]. by split. }
  rewrite collect_details_omap.
  case_bool_decide as Hheld; cbn [fst snd].
  - split; [by eexists |]. split; [done |]. by split.
  - split; [by eexists |]. split; [split; [done | by intros [_ ?]] |]. by split.
Qed.

Lemma collect_details_complete re_search re_findall detail clock completed d c :
  d ∈ FastScrap3.collect_details re_search re_findall detail clock [] completed →
  c ∈ FastScrap3.COLUMNS → is_Some (d !! c).
Proof.
  rewrite collect_details_omap. cbn [app].
  intros (url & _ & Hd)%list_elem_of_omap.
  by apply (extract_property_details_complete re_search re_findall detail clock
              url).
Qed.

(** The table of a run.  When [scrape_all], called on a scraper that holds
    no record yet, returns [True], the file written has the twenty-one
    columns of [COLUMNS] and one line per record held, and every cell of a
    line is the value of the record in that column, none of them missing. *)
Theorem scrape_all_table
    re_search re_findall listing detail clock completed_pages completed_urls
    property_type city (num_pages : Z) stamp (fs : FS) :
  let result :=
    FastScrap3.scrape_all re_search re_findall listing detail clock
      completed_pages completed_urls property_type city num_pages
      [] stamp fs in
  let held := result.1.2 in
  result.1.1.1 = true →
  result.2 !! FastScrap3.filename stamp
  = Some (Csv FastScrap3.COLUMNS (Pandas.write_row FastScrap3.COLUMNS <$> held))
  ∧ ∀ d c, d ∈ held → c ∈ FastScrap3.COLUMNS →
      ∃ v, d !! c = Some v
           ∧ Pandas.write_row FastScrap3.COLUMNS d !! c = Some v.
Proof.
  intros result held. subst held result. unfold FastScrap3.scrape_all.
  case_bool_decide as Hwalk; [done |].
  case_bool_decide as Hheld; cbn [fst snd]; [| done]. intros _.
  assert (Hcomplete : ∀ d c,
            d ∈ FastScrap3.collect_details re_search re_findall detail clock []
                  (completed_urls
                     (FastScrap3.walk listing completed_pages property_type city
                        (FastScrap3.pages num_pages))) →
            c ∈ FastScrap3.COLUMNS → is_Some (d !! c))
    by (intros d c; apply collect_details_complete).
  split.
  - unfold FastScrap3.save_to_csv. rewrite lookup_insert_eq. f_equal.
    apply output_frame_complete. apply Forall_forall. intros d Hd c Hc.
    by apply Hcomplete.
  - intros d c Hd Hc. destruct (Hcomplete d c Hd Hc) as [v Hv]. exists v.
    split; [done |]. rewrite write_row_lookup, decide_True by done.
    unfold Pandas.cell_text. by rewrite Hv.
Qed.

Lemma scrape_all_table_witness :
  let result :=
    FastScrap3.scrape_all Fixtures.no_match Fixtures.no_findall
      Fixtures.one_link Fixtures.two_fail Fixtures.noon
      Fixtures.in_order Fixtures.reversed "rent" "delhi"
      36 [] "20240202_120000" ∅ in
  result.2 !! FastScrap3.filename "20240202_120000"
  = Some (Csv FastScrap3.COLUMNS
            (Pandas.write_row FastScrap3.COLUMNS <$> result.1.2))
  ∧ ∀ d c, d ∈ result.1.2 → c ∈ FastScrap3.COLUMNS →
      ∃ v, d !! c = Some v
           ∧ Pandas.write_row FastScrap3.COLUMNS d !! c = Some v.
Proof.
  apply (scrape_all_table Fixtures.no_match Fixtures.no_findall
           Fixtures.one_link Fixtures.two_fail Fixtures.noon
           Fixtures.in_order Fixtures.reversed "rent" "delhi"
           36 "20240202_120000" ∅).
  vm_compute. reflexivity.
Defined.

(** What a record of [extract_property_details] always holds: the URL it
    was extracted from, the clock reading of its extraction, and the
    sentinel in the four fields that no statement assigns (Room_Type,
    Available_For, Rating, Nearby_Places). *)
Theorem extract_property_details_fixed_fields
    re_search re_findall detail clock url (d : Row) :
  FastScrap3.extract_property_details re_search re_findall detail clock url
  = Some d →
  d !! "Property_URL" = Some url
  ∧ d !! "Scraped_Date" = Some (clock url)
  ∧ Forall (λ c, d !! c = Some "N/A")
      ["Room_Type"; "Available_For"; "Rating"; "Nearby_Places"].
Proof.
  unfold FastScrap3.extract_property_details.
  destruct (detail url) as [soup|]; [| done]. intros [= <-].
  unfold FastScrap3.fill.
  assert (Hunset : ∀ c,
            c ∈ ["Property_URL"; "Scraped_Date"; "Room_Type"; "Available_For";
                 "Rating"; "Nearby_Places"] →
            ∀ v, (c, Some v) ∉ FastScrap3.extracted re_search re_findall soup).
  { intros c Hc v Hv. unfold FastScrap3.extracted in Hv.
    repeat (apply elem_of_cons in Hc as [->|Hc];
            [repeat (apply elem_of_cons in Hv as [Hv|Hv]; [discriminate Hv |]);
             by apply elem_of_nil in Hv |]).
    by apply elem_of_nil in Hc. }
  split; [| split].
  - rewrite assign_lookup_unset by (apply Hunset; set_solver).
    unfold FastScrap3.blank. rewrite lookup_insert_ne by done.
    by rewrite lookup_insert_eq.
  - rewrite assign_lookup_unset by (apply Hunset; set_solver).
    unfold FastScrap3.blank. by rewrite lookup_insert_eq.
  - repeat constructor;
      (rewrite assign_lookup_unset by (apply Hunset; set_solver));
      apply fastscrap3_blank_lookup; decide_by_evaluation.
Qed.

Lemma extract_property_details_fixed_fields_witness :
  ∃ d,
    FastScrap3.extract_property_details Fixtures.no_match Fixtures.no_findall
      Fixtures.two_fail Fixtures.noon "https://www.99acres.com/2-bhk-flat-spid-0"
    = Some d
    ∧ d !! "Property_URL" = Some "https://www.99acres.com/2-bhk-flat-spid-0"
    ∧ d !! "Scraped_Date" = Some "2024-02-02 12:00:00"
    ∧ Forall (λ c, d !! c = Some "N/A")
        ["Room_Type"; "Available_For"; "Rating"; "Nearby_Places"].
Proof.
  assert (Hd : FastScrap3.extract_property_details Fixtures.no_match
                 Fixtures.no_findall Fixtures.two_fail Fixtures.noon
                 "https://www.99acres.com/2-bhk-flat-spid-0"
               = Some (<["Property_Title" := "2 BHK Flat"]>
                         (FastScrap3.blank
                            "https://www.99acres.com/2-bhk-flat-spid-0"
                            "2024-02-02 12:00:00")))
    by decide_by_evaluation.
  eexists. split; [exact Hd |].
  exact (extract_property_details_fixed_fields _ _ _ _ _ _ Hd).
Defined.

(** ** webscrap2.py: fetching with retries *)

Section Retries.

Variable load : string → nat → option string.
Variable dump_stamp : string → nat → string.

Lemma load_attempts_from url retries len start dumps :
  start + len = S retries →
  match WebScrap2Scraper.load_attempts load dump_stamp url retries
          (seq start len) dumps with
  | (Some page_source, dumps') =>
      ∃ attempt,
        start ≤ attempt ≤ retries
        ∧ load url attempt = Some page_source
        ∧ (∀ earlier, start ≤ earlier < attempt → load url earlier = None)
        ∧ dumps'
          = dumps ++ [(WebScrap2Scraper.debug_file url (dump_stamp url attempt),
                       page_source)]
  | (None, dumps') =>
      (∀ attempt, start ≤ attempt ≤ retries → load url attempt = None)
      ∧ dumps' = dumps
  end.
Proof.
  revert start. induction len as [|len IH]; intros start Hlen; simpl.
  - split; [| done]. intros attempt ?. lia.
  - destruct (load url start) as [page_source|] eqn:Hload.
    + exists start. split; [lia |]. split; [done |]. split; [| done].
      intros earlier ?. lia.
    + case_bool_decide as Hlast.
      * split; [| done]. intros attempt ?. by replace attempt with start by lia.
      * specialize (IH (S start) ltac:(lia)).
        destruct (WebScrap2Scraper.load_attempts load dump_stamp url retries
                    (seq (S start) len) dumps) as [[page_source|] dumps'].
        -- destruct IH as (attempt & ? & ? & Hearlier & ?).
           exists attempt. split; [lia |]. split; [done |]. split; [| done].
           intros earlier ?. destruct (decide (earlier = start)) as [->|];
             [done | apply Hearlier; lia].
        -- destruct IH as [Hnone ?]. split; [| done].
           intros attempt ?. destruct (decide (attempt = start)) as [->|];
             [done | apply Hnone; lia].
Qed.

(** [_get_page_source_with_retries] returns the source of the first load
    that succeeds among the attempts 1 to [retries], and writes one debug
    dump, of that source; it returns nothing exactly when all those loads
    raise, and then writes no dump.  It never loads more than [retries]
    times, and with [retries] at 0 it does not load at all. *)
Theorem get_page_source_with_retries_first_success url retries dumps :
  match WebScrap2Scraper.get_page_source_with_retries load dump_stamp url
          retries dumps with
  | (Some page_source, dumps') =>
      ∃ attempt,
        1 ≤ attempt ≤ retries
        ∧ load url attempt = Some page_source
        ∧ (∀ earlier, 1 ≤ earlier < attempt → load url earlier = None)
        ∧ dumps'
          = dumps ++ [(WebScrap2Scraper.debug_file url (dump_stamp url attempt),
                       page_source)]
  | (None, dumps') =>
      (∀ attempt, 1 ≤ attempt ≤ retries → load url attempt = None)
      ∧ dumps' = dumps
  end.
Proof.
  unfold WebScrap2Scraper.get_page_source_with_retries.
  apply load_attempts_from. lia.
Qed.

End Retries.

(** With the three attempts of the configuration, a server that refuses
    twice is read at the third load. *)
Example get_page_source_third_time :
  WebScrap2Scraper.get_page_source_with_retries Scenarios.third_time
    Scenarios.dump_clock "https://www.99acres.com/2-bhk-flat-spid-0"
    WebScrap2Scraper.RETRY_ATTEMPTS []
  = (Some "<html>3 BHK</html>",
     [("debug_https___www_99acres_com_2_bhk_flat_spid_0_20240202_120000.html",
       "<html>3 BHK</html>")]).
Proof. vm_compute. reflexivity. Qed.

(** A page that loads with an empty source gives no record, although its
    dump is written: [if not page_src] takes the empty source for a failed
    fetch, and the load is not retried. *)
Theorem extract_property_details_empty_source
    re_search re_findall load soup_of dump_stamp scraped_date url dumps :
  load url 1 = Some "" →
  WebScrap2Scraper.extract_property_details re_search re_findall load soup_of
    dump_stamp scraped_date url dumps
  = (None, dumps ++ [(WebScrap2Scraper.debug_file url (dump_stamp url 1), "")]).
Proof.
  intros Hload. unfold WebScrap2Scraper.extract_property_details,
    WebScrap2Scraper.get_page_source_with_retries,
    WebScrap2Scraper.RETRY_ATTEMPTS.
  cbn [seq WebScrap2Scraper.load_attempts]. by rewrite Hload.
Qed.

Lemma extract_property_details_empty_source_witness :
  WebScrap2Scraper.extract_property_details Fixtures.no_match Fixtures.no_findall
    (λ _ _, Some "") (λ _, FastScrap3.mkSoup None "") Scenarios.dump_clock
    Fixtures.noon "https://www.99acres.com/2-bhk-flat-spid-0" []
  = (None,
     [] ++ [(WebScrap2Scraper.debug_file
               "https://www.99acres.com/2-bhk-flat-spid-0"
               (Scenarios.dump_clock "https://www.99acres.com/2-bhk-flat-spid-0" 1),
             "")]).
Proof. apply extract_property_details_empty_source. reflexivity. Defined.

(** ** webscrap2.py: the name of a debug dump *)

Lemma take_sanitize n url :
  String.length (PyStr.take n (WebScrap2Scraper.sanitize url)) = n `min` String.length url
  ∧ Forall (λ c, WebScrap2Scraper.is_alnum c = true ∨ c = WebScrap2Scraper.underscore)
      (String.list_ascii_of_string (PyStr.take n (WebScrap2Scraper.sanitize url))).
Proof.
  unfold PyStr.take. revert url. induction n as [|n IH]; intros url.
  - destruct url; simpl; by split.
  - destruct url as [|c url]; simpl; [by split |].
    destruct (IH url) as [Hlen Hchars]. split; [by rewrite Hlen |].
    constructor; [| done].
    destruct (WebScrap2Scraper.is_alnum c) eqn:Hc; [by left | by right].
Qed.

(** The name of a debug dump is "debug_", a stem, "_", the clock reading and
    ".html", where the stem has as many characters as the URL up to sixty,
    each of them an ASCII letter, a digit or an underscore. *)
Theorem debug_file_stem url stamp :
  ∃ stem,
    WebScrap2Scraper.debug_file url stamp
    = "debug_" +:+ stem +:+ "_" +:+ stamp +:+ ".html"
    ∧ String.length stem = 60 `min` String.length url
    ∧ Forall (λ c, WebScrap2Scraper.is_alnum c = true
                   ∨ c = WebScrap2Scraper.underscore)
        (String.list_ascii_of_string stem).
Proof.
  exists (PyStr.take 60 (WebScrap2Scraper.sanitize url)).
  split; [done |]. apply take_sanitize.
Qed.

(** ** webscrap2.py: the table and the run *)

Lemma fill_columns_length (df : DataFrame) cols :
  length (rows (foldl (λ df col,
                         if bool_decide (col ∈ columns df) then df
                         else Pandas.set_column col "N/A" df) df cols))
  = length (rows df).
Proof.
  revert df. induction cols as [|col cols IH]; intros df; simpl; [done |].
  rewrite IH. case_bool_decide; [done |]. simpl. by rewrite length_fmap.
Qed.

(** The table of the sequential scraper has one line per record and the
    twenty columns of [COLUMNS]; "Property_URL" is not among them, so the URL
    that every record carries is in no line of the file. *)
Theorem webscrap2_table_drops_url properties stamp (fs : FS) :
  ∃ lines,
    WebScrap2Scraper.save_to_csv properties stamp fs
      !! WebScrap2Scraper.filename stamp
    = Some (Csv WebScrap2Scraper.COLUMNS lines)
    ∧ length WebScrap2Scraper.COLUMNS = 20
    ∧ length lines = length properties
    ∧ ∀ line : Row, line ∈ lines → line !! "Property_URL" = None.
Proof.
  unfold WebScrap2Scraper.save_to_csv. rewrite lookup_insert_eq.
  unfold Pandas.to_csv, WebScrap2Scraper.output_frame, Pandas.select.
  cbn [columns rows]. eexists. split; [done |]. split; [done |]. split.
  - rewrite !length_fmap. by rewrite fill_columns_length.
  - intros line (r & -> & _)%list_elem_of_fmap.
    rewrite write_row_lookup. rewrite decide_False; [done |].
    decide_by_evaluation.
Qed.

(** Where the driver cannot be initialised, and for every [num_pages] below
    20, [scrape_all] returns [False] having loaded no page: the records, the
    dumps and the file system are as before. *)
Theorem webscrap2_scrape_all_idle
    re_search re_findall load links_of soup_of dump_stamp scraped_date
    driver_ready property_type city (num_pages : Z) properties stamp dumps
    (fs : FS) :
  driver_ready = false ∨ (num_pages < 20)%Z →
  WebScrap2Scraper.scrape_all re_search re_findall load links_of soup_of
    dump_stamp scraped_date driver_ready property_type city num_pages
    properties stamp dumps fs
  = (false, properties, dumps, fs).
Proof.
  intros Hidle. unfold WebScrap2Scraper.scrape_all.
  destruct driver_ready; [| done]. destruct Hidle as [|Hlt]; [done |].
  unfold WebScrap2Scraper.pages. by rewrite seqZ_nil by lia.
Qed.

Lemma webscrap2_scrape_all_idle_witness :
  WebScrap2Scraper.scrape_all Fixtures.no_match Fixtures.no_findall
    Scenarios.third_time (λ _, []) (λ _, FastScrap3.mkSoup None "")
    Scenarios.dump_clock Fixtures.noon true "rent" "delhi" 19 []
    "20240202_120000" [] Fixtures.one_listing
  = (false, [], [], Fixtures.one_listing).
Proof. apply webscrap2_scrape_all_idle. right. reflexivity. Defined.

(** ** The URL of a page *)

Lemma listing_url_inj property_type city (p q : Z) :
  WebScrap2Scraper.listing_url property_type city p
  = WebScrap2Scraper.listing_url property_type city q → p = q.
Proof.
  unfold WebScrap2Scraper.listing_url.
  set (first := _ +:+ _). do 2 case_bool_decide; try congruence.
  - intros Heq. rewrite <- (append_empty_r first) in Heq at 1.
    apply (inj (String.app _)) in Heq. discriminate Heq.
  - intros Heq. rewrite <- (append_empty_r first) in Heq at 2.
    apply (inj (String.app _)) in Heq. discriminate Heq.
  - intros Heq. do 2 apply (inj (String.app _)) in Heq. by apply (inj pretty).
Qed.

(** Two page numbers are loaded from the same URL only if they are equal,
    in web2.py and in the listing URLs of the class-based scrapers: the first
    page, which has no page parameter, included. *)
Theorem page_url_injective (p q : Z) :
  (Web2.page_url p = Web2.page_url q → p = q)
  ∧ ∀ property_type city,
      WebScrap2Scraper.listing_url property_type city p
      = WebScrap2Scraper.listing_url property_type city q → p = q.
Proof.
  split.
  - unfold Web2.page_url. do 2 case_bool_decide; try congruence.
    + intros Heq. apply (inj (String.app _)) in Heq.
      rewrite <- (append_empty_r Web2.SEARCH_PARAMS) in Heq at 1.
      apply (inj (String.app _)) in Heq. discriminate Heq.
    + intros Heq. apply (inj (String.app _)) in Heq.
      rewrite <- (append_empty_r Web2.SEARCH_PARAMS) in Heq at 2.
      apply (inj (String.app _)) in Heq. discriminate Heq.
    + intros Heq. do 3 apply (inj (String.app _)) in Heq. by apply (inj pretty).
  - intros property_type city. apply listing_url_inj.
Qed.

(** ** fastscrap3.py: the pages that a run reads *)

Lemma bind_ext_in {A B} (f g : A → list B) (l : list A) :
  (∀ x, x ∈ l → f x = g x) → l ≫= f = l ≫= g.
Proof.
  induction l as [|x l IH]; intros Hext; csimpl; [done |].
  rewrite (Hext x) by left. f_equal. apply IH. intros y Hy. apply Hext. by right.
Qed.

(** [scrape_all] never reads the listing pages 1 to 35: two sites that show
    the same hyperlinks on every page from 36 on give the same run, whatever
    they show on the first thirty-five pages. *)
Theorem scrape_all_ignores_first_pages
    re_search re_findall listing listing' detail clock completed_pages
    completed_urls property_type city (num_pages : Z) properties stamp (fs : FS) :
  (∀ l : list Z, completed_pages l ≡ₚ l) →
  (∀ page, (36 ≤ page)%Z →
     listing property_type city page = listing' property_type city page) →
  FastScrap3.scrape_all re_search re_findall listing detail clock
    completed_pages completed_urls property_type city num_pages properties
    stamp fs
  = FastScrap3.scrape_all re_search re_findall listing' detail clock
      completed_pages completed_urls property_type city num_pages properties
      stamp fs.
Proof.
  intros Hsched Hsame. unfold FastScrap3.scrape_all.
  assert (Hwalk : FastScrap3.walk listing completed_pages property_type city
                    (FastScrap3.pages num_pages)
                  = FastScrap3.walk listing' completed_pages property_type city
                      (FastScrap3.pages num_pages)).
  { unfold FastScrap3.walk. f_equal. apply bind_ext_in. intros page Hpage.
    rewrite (Hsched (FastScrap3.pages num_pages)) in Hpage.
    unfold FastScrap3.pages in Hpage. apply elem_of_seqZ in Hpage.
    unfold FastScrap3.extract_urls_from_page. rewrite Hsame by lia. done. }
  by rewrite Hwalk.
Qed.

Lemma scrape_all_ignores_first_pages_witness :
  FastScrap3.scrape_all Fixtures.no_match Fixtures.no_findall
    Fixtures.one_link Fixtures.two_fail Fixtures.noon
    Fixtures.in_order Fixtures.reversed "rent" "delhi"
    37 [] "20240202_120000" ∅
  = FastScrap3.scrape_all Fixtures.no_match Fixtures.no_findall
      Scenarios.late_pages_only Fixtures.two_fail Fixtures.noon
      Fixtures.in_order Fixtures.reversed "rent" "delhi"
      37 [] "20240202_120000" ∅.
Proof.
  apply scrape_all_ignores_first_pages.
  - intros l. reflexivity.
  - intros page Hpage. unfold Fixtures.one_link, Scenarios.late_pages_only.
    by rewrite bool_decide_eq_false_2 by lia.
Defined.

(** ** webscrap2.py: the pages that a run reads *)

(** Every listing URL contains "/search/", which no extracted URL does. *)
Lemma listing_url_search property_type city page :
  PyStr.contains "/search/" (WebScrap2Scraper.listing_url property_type city page)
  = true.
Proof. unfold WebScrap2Scraper.listing_url. case_bool_decide; reflexivity. Qed.

Lemma foldl_ext_in {A B} (f g : A → B → A) (l : list B) (a : A) :
  (∀ a x, x ∈ l → f a x = g a x) → foldl f a l = foldl g a l.
Proof.
  revert a. induction l as [|x l IH]; intros a Hext; simpl; [done |].
  rewrite (Hext a x) by left. apply IH. intros a' y Hy. apply Hext. by right.
Qed.

Section Reads.

Variable re_search : string → bool → string → option FastScrap3.Match.
Variable re_findall : string → string → list string.
Variables load load' : string → nat → option string.
Variable links_of : string → list string.
Variable soup_of : string → FastScrap3.Soup.
Variable dump_stamp : string → nat → string.
Variable scraped_date : string → string.
Variables property_type city : string.

(** The two browsers differ at most on the listing pages below 20. *)
Hypothesis same_elsewhere :
  ∀ url attempt,
    (∀ page, (page < 20)%Z →
       url ≠ WebScrap2Scraper.listing_url property_type city page) →
    load url attempt = load' url attempt.

Lemma get_page_source_same url retries dumps :
  (∀ attempt, load url attempt = load' url attempt) →
  WebScrap2Scraper.get_page_source_with_retries load dump_stamp url retries dumps
  = WebScrap2Scraper.get_page_source_with_retries load' dump_stamp url retries
      dumps.
Proof.
  intros Hsame. unfold WebScrap2Scraper.get_page_source_with_retries.
  induction (seq 1 retries) as [|attempt rest IH]; simpl; [done |].
  by rewrite Hsame, IH.
Qed.

Lemma extract_urls_from_page_same page dumps :
  (20 ≤ page)%Z →
  WebScrap2Scraper.extract_urls_from_page load links_of dump_stamp
    property_type city page dumps
  = WebScrap2Scraper.extract_urls_from_page load' links_of dump_stamp
      property_type city page dumps.
Proof.
  intros Hpage. unfold WebScrap2Scraper.extract_urls_from_page.
  rewrite get_page_source_same; [done |].
  intros attempt. apply same_elsewhere.
  intros page' Hpage' Heq%listing_url_inj. lia.
Qed.

Lemma extract_property_details_same url dumps :
  PyStr.contains "/search/" url = false →
  WebScrap2Scraper.extract_property_details re_search re_findall load soup_of
    dump_stamp scraped_date url dumps
  = WebScrap2Scraper.extract_property_details re_search re_findall load' soup_of
      dump_stamp scraped_date url dumps.
Proof.
  intros Hurl. unfold WebScrap2Scraper.extract_property_details.
  rewrite get_page_source_same; [done |].
  intros attempt. apply same_elsewhere. intros page _ ->.
  by rewrite listing_url_search in Hurl.
Qed.

(** The URLs collected from the listing pages are free of "/search/". *)
Lemma collect_urls_wellformed (visited : list Z) dumps u :
  u ∈ (WebScrap2Scraper.collect_urls load links_of dump_stamp property_type city
         visited dumps).1 →
  PyStr.contains "/search/" u = false.
Proof.
  unfold WebScrap2Scraper.collect_urls.
  assert (Hacc : ∀ (visited : list Z) (all_urls : list string) dumps,
            (∀ u, u ∈ all_urls → PyStr.contains "/search/" u = false) →
            ∀ u, u ∈ (foldl (λ '(all_urls, dumps) page,
                               let '(urls, dumps) :=
                                 WebScrap2Scraper.extract_urls_from_page load
                                   links_of dump_stamp property_type city page
                                   dumps in
                               (all_urls ++ urls, dumps))
                            (all_urls, dumps) visited).1 →
                 PyStr.contains "/search/" u = false).
  { clear. intros visited. induction visited as [|page visited IH];
      intros all_urls dumps Hall; simpl; [done |].
    destruct (WebScrap2Scraper.extract_urls_from_page load links_of dump_stamp
                property_type city page dumps) as [urls dumps'] eqn:Hpage.
    apply IH. intros u [Hu|Hu]%elem_of_app; [by apply Hall |].
    unfold WebScrap2Scraper.extract_urls_from_page in Hpage.
    destruct (WebScrap2Scraper.get_page_source_with_retries _ _ _ _ _)
      as [page_src dumps''].
    destruct (WebScrap2Scraper.usable page_src) as [src|];
      injection Hpage as <- _.
    - apply (proj2 (elem_of_extract_urls (links_of src) u)) in Hu
        as (href & _ & Hkept).
      by apply (kept_wellformed href).
    - by apply elem_of_nil in Hu. }
  apply Hacc. intros u' Hu'. by apply elem_of_nil in Hu'.
Qed.

(** [scrape_all] never reads the listing pages 1 to 19: two browsers that
    differ on those pages only give the same run.  (The detail pages are
    read from URLs without "/search/", so none of them is such a page.) *)
Theorem webscrap2_scrape_all_ignores_first_pages
    driver_ready (num_pages : Z) properties stamp dumps (fs : FS) :
  WebScrap2Scraper.scrape_all re_search re_findall load links_of soup_of
    dump_stamp scraped_date driver_ready property_type city num_pages
    properties stamp dumps fs
  = WebScrap2Scraper.scrape_all re_search re_findall load' links_of soup_of
      dump_stamp scraped_date driver_ready property_type city num_pages
      properties stamp dumps fs.
Proof.
  unfold WebScrap2Scraper.scrape_all. destruct driver_ready; [| done].
  assert (Hurls : WebScrap2Scraper.collect_urls load links_of dump_stamp
                    property_type city (WebScrap2Scraper.pages num_pages) dumps
                  = WebScrap2Scraper.collect_urls load' links_of dump_stamp
                      property_type city (WebScrap2Scraper.pages num_pages)
                      dumps).
  { unfold WebScrap2Scraper.collect_urls. apply foldl_ext_in.
    intros [all_urls dumps'] page Hpage.
    rewrite extract_urls_from_page_same; [done |].
    unfold WebScrap2Scraper.pages in Hpage. apply elem_of_seqZ in Hpage. lia. }
  pose proof (collect_urls_wellformed (WebScrap2Scraper.pages num_pages) dumps)
    as Hwell.
  rewrite <- Hurls.
  destruct (WebScrap2Scraper.collect_urls load links_of dump_stamp property_type
              city (WebScrap2Scraper.pages num_pages) dumps)
    as [all_urls dumps'].
  cbn [fst] in Hwell. case_bool_decide; [done |].
  assert (Hdetails : WebScrap2Scraper.collect_details re_search re_findall load
                       soup_of dump_stamp scraped_date properties
                       (PyDict.fromkeys all_urls) dumps'
                     = WebScrap2Scraper.collect_details re_search re_findall
                         load' soup_of dump_stamp scraped_date properties
                         (PyDict.fromkeys all_urls) dumps').
  { unfold WebScrap2Scraper.collect_details. apply foldl_ext_in.
    intros [held dumps''] url Hurl.
    apply (proj1 (elem_of_fromkeys url all_urls)) in Hurl.
    rewrite extract_property_details_same; [done |]. by apply Hwell. }
  by rewrite Hdetails.
Qed.

End Reads.

Lemma webscrap2_scrape_all_ignores_first_pages_witness :
  WebScrap2Scraper.scrape_all Fixtures.no_match Fixtures.no_findall
    Scenarios.third_time (λ _, ["/2-bhk-flat-spid-0"])
    (λ _, FastScrap3.mkSoup (Some "2 BHK Flat") "")
    Scenarios.dump_clock Fixtures.noon true "rent" "delhi" 21 []
    "20240202_120000" [] ∅
  = WebScrap2Scraper.scrape_all Fixtures.no_match Fixtures.no_findall
      Scenarios.first_page_blocked (λ _, ["/2-bhk-flat-spid-0"])
      (λ _, FastScrap3.mkSoup (Some "2 BHK Flat") "")
      Scenarios.dump_clock Fixtures.noon true "rent" "delhi" 21 []
      "20240202_120000" [] ∅.
Proof.
  apply webscrap2_scrape_all_ignores_first_pages.
  intros url attempt Hurl. unfold Scenarios.first_page_blocked.
  rewrite bool_decide_eq_false_2; [done |]. by apply Hurl.
Defined.
